(** * The COCO dataset pipeline of torchvision's prototype datasets

    A shallow embedding of [torchvision/prototype/datasets/_builtin/coco.py]:
    the two annotation decoders, the two classifiers, the collation steps and
    the vocabulary builder, together with the part of Python's object model
    they rely on (dynamically typed JSON values, insertion-ordered
    dictionaries, exceptions, keyword-only arguments). *)

From Stdlib Require Import List String Ascii ZArith Bool Lia Permutation Sorted.
Import ListNotations.
Local Open Scope string_scope.

Set Implicit Arguments.
Set Warnings "-register-all".

(** ** Exceptions and the result monad *)

(** The exceptions the modelled code can raise.  [KeyError] carries the
    missing key; the other classes carry a short reason. *)
Inductive exn : Type :=
| KeyError (key : string)
| ValueError (why : string)
| TypeError (why : string)
| AttributeError (attr : string)
| IndexError (why : string)
| StopIteration
| TensorError.

(** A computation either returns a value or raises. *)
Inductive result (A : Type) : Type :=
| Ok (a : A)
| Raise (e : exn).
Arguments Ok {A} a.
Arguments Raise {A} e.

Definition bind {A B : Type} (m : result A) (k : A -> result B) : result B :=
  match m with
  | Ok a => k a
  | Raise e => Raise e
  end.

Notation "x <- m ;; k" := (bind m (fun x => k))
  (at level 61, m at next level, right associativity).
Notation "' p <- m ;; k" := (bind m (fun x => match x with p => k end))
  (at level 61, p pattern, m at next level, right associativity).

Definition raises {A : Type} (m : result A) : Prop := exists e, m = Raise e.

(** Map a fallible function over a list, left to right, stopping at the first
    exception. *)
Fixpoint mapM {A B : Type} (f : A -> result B) (l : list A) : result (list B) :=
  match l with
  | [] => Ok []
  | x :: l' => y <- f x ;; ys <- mapM f l' ;; Ok (y :: ys)
  end.

(** ** Insertion-ordered dictionaries with string keys

    A Python [dict] keeps its entries in insertion order, and [items()]
    walks them in that order, so a dictionary is an association list.
    Lookup reads the first binding of a key; [set] overwrites in place or
    appends; [remove] drops every binding of the key, so the operations
    behave as a map on any list. *)
Module PyDict.
Section Ops.
Variable V : Type.

Definition t : Type := list (string * V).

Fixpoint get (k : string) (d : t) : option V :=
  match d with
  | [] => None
  | (k', v) :: d' => if String.eqb k k' then Some v else get k d'
  end.

Definition mem (k : string) (d : t) : bool :=
  match get k d with Some _ => true | None => false end.

Fixpoint set (k : string) (v : V) (d : t) : t :=
  match d with
  | [] => [(k, v)]
  | (k', v') :: d' =>
      if String.eqb k k' then (k', v) :: d' else (k', v') :: set k v d'
  end.

Definition remove (k : string) (d : t) : t :=
  filter (fun kv => negb (String.eqb k (fst kv))) d.

Definition keys (d : t) : list string := map fst d.

(** [d[k]] *)
Definition getitem (k : string) (d : t) : result V :=
  match get k d with
  | Some v => Ok v
  | None => Raise (KeyError k)
  end.

(** [d.pop(k)], without a default: the value and the remaining
    dictionary. *)
Definition pop (k : string) (d : t) : result (V * t) :=
  match get k d with
  | Some v => Ok (v, remove k d)
  | None => Raise (KeyError k)
  end.

(** [dict(pairs)]: later pairs overwrite earlier ones. *)
Definition of_pairs (l : list (string * V)) : t :=
  fold_left (fun d kv => set (fst kv) (snd kv) d) l [].

(** [dict(d, **kw)]: a copy of [d] updated with the keyword pairs. *)
Definition update (d : t) (kw : list (string * V)) : t :=
  fold_left (fun d kv => set (fst kv) (snd kv) d) kw d.
End Ops.
End PyDict.

(** ** JSON values *)

(** What the JSON parser hands to the pipeline.  Numbers are integers:
    the modelled functions never compute with them. *)
Inductive json : Type :=
| JNull
| JBool (b : bool)
| JInt (n : Z)
| JStr (s : string)
| JList (xs : list json)
| JDict (kvs : list (string * json)).

(** [bool(v)] *)
Definition py_bool (v : json) : bool :=
  match v with
  | JNull => false
  | JBool b => b
  | JInt n => negb (n =? 0)%Z
  | JStr s => negb (String.eqb s "")
  | JList xs => match xs with [] => false | _ => true end
  | JDict kvs => match kvs with [] => false | _ => true end
  end.

(** [v[k]] for a string subscript [k]. *)
Definition py_getitem (v : json) (k : string) : result json :=
  match v with
  | JDict d => PyDict.getitem k d
  | JList _ => Raise (TypeError "list indices must be integers or slices, not str")
  | JStr _ => Raise (TypeError "string indices must be integers")
  | JNull | JBool _ | JInt _ => Raise (TypeError "object is not subscriptable")
  end.

(** [v.copy()]: dictionaries and lists have the method.  A copy is shallow,
    and equal to its original as a value. *)
Definition py_copy (v : json) : result json :=
  match v with
  | JDict _ | JList _ => Ok v
  | _ => Raise (AttributeError "copy")
  end.

(** [v.pop(k)] for a string [k], returning the popped value and what is left
    of [v].  A list takes an integer position only. *)
Definition py_pop (v : json) (k : string) : result (json * json) :=
  match v with
  | JDict d => '(x, d') <- PyDict.pop k d ;; Ok (x, JDict d')
  | JList _ => Raise (TypeError "str object cannot be interpreted as an integer")
  | _ => Raise (AttributeError "pop")
  end.

(** ** Values of a decoded sample *)

(** A decoded sample holds parsed values carried through, tensors, the raw
    image buffer and nested dictionaries. *)
Inductive pyobj : Type :=
| Json (j : json)
| Tensor (data : json)
| Buffer (content : string)
| Dict (kvs : list (string * pyobj)).

(** [torch.tensor(data)] accepts a number or a rectangular nest of lists of
    numbers that fit 64 bits; [tensor_shape] is the shape it infers. *)
Definition shape_eqb (s1 s2 : list nat) : bool :=
  if list_eq_dec Nat.eq_dec s1 s2 then true else false.

Fixpoint tensor_shape (v : json) : option (list nat) :=
  match v with
  | JBool _ => Some []
  | JInt n => if ((- 2 ^ 63 <=? n) && (n <? 2 ^ 63))%Z then Some [] else None
  | JList xs =>
      match map tensor_shape xs with
      | [] => Some [0]
      | Some sh :: rest =>
          if forallb (fun o => match o with
                               | Some sh' => shape_eqb sh sh'
                               | None => false
                               end) rest
          then Some (List.length xs :: sh) else None
      | None :: _ => None
      end
  | JNull | JStr _ | JDict _ => None
  end.

Definition torch_tensor (v : json) : result pyobj :=
  match tensor_shape v with
  | Some _ => Ok (Tensor v)
  | None => Raise TensorError
  end.

(** [seq.index(v)] on a sequence of strings: the position of the first
    element equal to [v].  A string equals no value of another type. *)
Fixpoint index_of (s : string) (l : list string) : option nat :=
  match l with
  | [] => None
  | x :: l' =>
      if String.eqb x s then Some 0
      else match index_of s l' with
           | Some i => Some (S i)
           | None => None
           end
  end.

Definition py_index (l : list string) (v : json) : result nat :=
  match v with
  | JStr s =>
      match index_of s l with
      | Some i => Ok i
      | None => Raise (ValueError "value is not in the sequence")
      end
  | _ => Raise (ValueError "value is not in the sequence")
  end.

(** ** The annotation decoders *)

(** [Coco._decode_instances_ann]; [categories] is [self.categories], the
    vocabulary of category names. *)
Definition _decode_instances_ann (categories : list string) (ann : json)
  : result pyobj :=
  area <- py_getitem ann "area" ;;
  iscrowd_raw <- py_getitem ann "iscrowd" ;;
  let iscrowd := py_bool iscrowd_raw in
  bbox_raw <- py_getitem ann "bbox" ;;
  bbox <- torch_tensor bbox_raw ;;
  category_id <- py_getitem ann "category_id" ;;
  category <- py_index categories category_id ;;
  id <- py_getitem ann "id" ;;
  Ok (Dict [("area", Json area);
            ("iscrowd", Json (JBool iscrowd));
            ("bbox", bbox);
            ("category", Json (JInt (Z.of_nat category)));
            ("id", Json id)]).

(** [Coco._decode_captions_ann] *)
Definition _decode_captions_ann (ann : json) : result pyobj :=
  ann1 <- py_copy ann ;;
  '(_, ann2) <- py_pop ann1 "image_id" ;;
  Ok (Json ann2).

(** ** The annotation type tables *)

(** [Coco._ANN_TYPES] and [Coco._ANN_TYPE_DEFAULTS] *)
Definition _ANN_TYPES : list string := ["instances"; "captions"].
Definition _ANN_TYPE_DEFAULTS : list bool := [true; false].

(** [Coco._ANN_DECODERS]: the decoders as plain functions, applied to the
    dataset object (of which they read [categories] only) and a record. *)
Definition _ANN_DECODERS : list (list string -> json -> result pyobj) :=
  [ _decode_instances_ann; (fun _ => _decode_captions_ann) ].

(** [Coco._ANN_DECODER_MAP] *)
Definition _ANN_DECODER_MAP : PyDict.t (list string -> json -> result pyobj) :=
  PyDict.of_pairs (combine _ANN_TYPES _ANN_DECODERS).

(** The validated options of a dataset configuration. *)
Record DatasetConfig : Type := {
  instances : bool;
  captions : bool;
  split : string;
  year : string
}.

(** [config[type]] for an annotation type. *)
Definition config_enabled (config : DatasetConfig) (type : string) : bool :=
  if String.eqb type "instances" then instances config
  else if String.eqb type "captions" then captions config
  else false.

(** ** The metadata file pattern *)

(** [pathlib.Path(p).name]: the last component of a POSIX path, where empty
    components and [.] do not count. *)
Fixpoint split_on (sep : ascii) (s : string) : list string :=
  match s with
  | EmptyString => [EmptyString]
  | String c s' =>
      if Ascii.eqb c sep then EmptyString :: split_on sep s'
      else match split_on sep s' with
           | [] => [String c EmptyString]
           | w :: ws => String c w :: ws
           end
  end.

Definition path_name (p : string) : string :=
  last (filter (fun c => negb (String.eqb c "") && negb (String.eqb c "."))
               (split_on "/" p)) "".

(** [[a-zA-Z]] *)
Definition is_alpha (c : ascii) : bool :=
  let n := nat_of_ascii c in
  ((65 <=? n) && (n <=? 90) || (97 <=? n) && (n <=? 122))%nat.

(** [\d] for names written in ASCII.  (It also accepts the decimal digits
    of other scripts; a year so written differs from every year a
    configuration can hold.) *)
Definition is_digit (c : ascii) : bool :=
  let n := nat_of_ascii c in ((48 <=? n) && (n <=? 57))%nat.

(** The longest prefix whose characters satisfy [p], and what follows it. *)
Fixpoint span (p : ascii -> bool) (s : string) : string * string :=
  match s with
  | EmptyString => (EmptyString, EmptyString)
  | String c s' =>
      if p c then let (a, b) := span p s' in (String c a, b)
      else (EmptyString, s)
  end.

(** Every character of [s] satisfies [p]. *)
Fixpoint string_forall (p : ascii -> bool) (s : string) : bool :=
  match s with
  | EmptyString => true
  | String c s' => p c && string_forall p s'
  end.


Fixpoint strip_prefix (p s : string) : option string :=
  match p, s with
  | EmptyString, _ => Some s
  | String a p', String b s' => if Ascii.eqb a b then strip_prefix p' s' else None
  | String _ _, EmptyString => None
  end.

(** The named groups of a successful match. *)
Module Match.
Record t : Type := { ann_type : string; split : string; year : string }.
End Match.

(** What follows the annotation type in [_META_FILE_PATTERN]:
    [_(?P<split>[a-zA-Z]+)(?P<year>\d+)[.]json].  A letter is no digit and a
    dot is neither, so each greedy run can only end where it does: giving a
    character back never lets the rest match. *)
Definition match_split_year (rest : string) : option (string * string) :=
  match strip_prefix "_" rest with
  | None => None
  | Some rest1 =>
      let (s, rest2) := span is_alpha rest1 in
      let (y, rest3) := span is_digit rest2 in
      if String.eqb s "" || String.eqb y "" then None
      else match strip_prefix ".json" rest3 with
           | Some _ => Some (s, y)
           | None => None
           end
  end.

(** The alternation over the annotation types: the first alternative with
    which the whole pattern matches. *)
Fixpoint match_alternatives (alts : list string) (name : string) : option Match.t :=
  match alts with
  | [] => None
  | a :: alts' =>
      match strip_prefix a name with
      | Some rest =>
          match match_split_year rest with
          | Some (s, y) =>
              Some {| Match.ann_type := a; Match.split := s; Match.year := y |}
          | None => match_alternatives alts' name
          end
      | None => match_alternatives alts' name
      end
  end.

(** [Coco._META_FILE_PATTERN.match(name)]: the pattern is anchored at the
    start of [name] only. *)
Definition _META_FILE_PATTERN_match (name : string) : option Match.t :=
  match_alternatives _ANN_TYPES name.

(** ** The classifiers *)

(** [Coco._classifiy_meta_files], its keyword-only parameters bound. *)
Definition _classifiy_meta_files {A : Type} (data : string * A)
  (split year : string) (ann_type_idcs : PyDict.t nat) : option nat :=
  match _META_FILE_PATTERN_match (path_name (fst data)) with
  | None => None
  | Some m =>
      if negb (String.eqb (Match.split m) split)
         || negb (String.eqb (Match.year m) year)
      then None
      else PyDict.get (Match.ann_type m) ann_type_idcs
  end.

(** [Coco._classify_meta] *)
Definition _classify_meta (data : string * json) : option nat :=
  let (key, _) := data in
  if String.eqb key "images" then Some 0
  else if String.eqb key "annotations" then Some 1
  else None.

(** ** Calls with keyword arguments *)

(** The values passed by keyword to the file classifier. *)
Inductive kwarg : Type :=
| KwStr (s : string)
| KwIdcs (d : PyDict.t nat).

(** Binding keyword arguments to keyword-only parameters without defaults:
    a keyword that names no parameter is refused first, then a parameter
    left without an argument. *)
Definition bind_keywords (params : list string) (kwargs : list (string * kwarg))
  : result unit :=
  match find (fun kv => negb (existsb (String.eqb (fst kv)) params)) kwargs with
  | Some (k, _) => Raise (TypeError ("got an unexpected keyword argument " ++ k))
  | None =>
      match find (fun p => negb (PyDict.mem p kwargs)) params with
      | Some p => Raise (TypeError ("missing required keyword-only argument " ++ p))
      | None => Ok tt
      end
  end.

(** A call [self._classifiy_meta_files(data, **kwargs)]. *)
Definition call_classifiy_meta_files {A : Type} (data : string * A)
  (kwargs : list (string * kwarg)) : result (option nat) :=
  _ <- bind_keywords ["split"; "year"; "ann_type_idcs"] kwargs ;;
  match PyDict.get "split" kwargs, PyDict.get "year" kwargs,
        PyDict.get "ann_type_idcs" kwargs with
  | Some (KwStr split), Some (KwStr year), Some (KwIdcs idcs) =>
      Ok (_classifiy_meta_files data split year idcs)
  | _, _, _ => Raise (TypeError "keyword argument of an unexpected type")
  end.

(** The annotation types a configuration selects, in table order:
    [ann_types] of [_make_anns_dp]. *)
Definition selected_ann_types (config : DatasetConfig) : list string :=
  filter (config_enabled config) _ANN_TYPES.

(** [dict(zip(ann_types, range(len(ann_types))))]: the channel of each
    selected annotation type. *)
Definition channel_table (ann_types : list string) : PyDict.t nat :=
  PyDict.of_pairs (combine ann_types (seq 0 (List.length ann_types))).

(** The classifier [_make_anns_dp] hands to the demultiplexer:
    [functools.partial(self._classifiy_meta_files, split=config.split,
    year=config.year, type_idcs=dict(zip(ann_types, range(len(ann_types)))))]. *)
Definition meta_file_classifier {A : Type} (config : DatasetConfig)
  (data : string * A) : result (option nat) :=
  let ann_types := selected_ann_types config in
  call_classifiy_meta_files data
    [ ("split", KwStr (split config));
      ("year", KwStr (year config));
      ("type_idcs", KwIdcs (channel_table ann_types)) ].

(** ** Collation *)

(** [zip( *data )] over a list of pairs: the tuple of first components and
    the tuple of second components, and nothing at all for the empty list. *)
Definition zip_star {A B : Type} (data : list (A * B)) : option (list A * list B) :=
  match data with
  | [] => None
  | _ :: _ => Some (List.split data)
  end.

(** [Coco._precollate_anns].  [data] holds, for one image, a pair of the
    grouped annotation records and the image record per annotation stream
    that has the image. *)
Definition _precollate_anns (data : list (list json * json)) (types : list string)
  : result (json * PyDict.t json) :=
  match zip_star data with
  | None => Raise (ValueError "not enough values to unpack (expected 2, got 0)")
  | Some (ann_data, images) =>
      match images with
      | [] => Raise (ValueError "not enough values to unpack (expected at least 1, got 0)")
      | image_data :: _ =>
          file_name <- py_getitem image_data "file_name" ;;
          Ok (file_name, PyDict.of_pairs (combine types (map JList ann_data)))
      end
  end.

(** The dictionary comprehension of [_collate_and_decode_sample]:
    [{type: self._ANN_DECODER_MAP[type](self, ann) for type, ann in anns.items()}] *)
Definition decode_anns (categories : list string) (anns : PyDict.t json)
  : result (PyDict.t pyobj) :=
  decoded <- mapM (fun kv : string * json =>
                     let (type, ann) := kv in
                     decode <- PyDict.getitem type _ANN_DECODER_MAP ;;
                     v <- decode categories ann ;;
                     Ok (type, v)) anns ;;
  Ok (PyDict.of_pairs decoded).

(** One decoded entry per entry of the collated mapping, under its key. *)
Definition decoded_from (categories : list string) (kv : string * json)
  (y : string * pyobj) : Prop :=
  exists decode,
    PyDict.get (fst kv) _ANN_DECODER_MAP = Some decode
    /\ decode categories (snd kv) = Ok (snd y)
    /\ fst y = fst kv.

(** [Coco._collate_and_decode_sample].  An image decoder, when given, maps
    the buffer to a tensor or raises. *)
Definition _collate_and_decode_sample (categories : list string)
  (data : (json * PyDict.t json) * (string * string))
  (decoder : option (string -> result pyobj)) : result (PyDict.t pyobj) :=
  let '(ann_data, image_data) := data in
  let '(_, anns) := ann_data in
  let '(path, buffer) := image_data in
  anns <- decode_anns categories anns ;;
  image <- match decoder with
           | Some decode => decode buffer
           | None => Ok (Buffer buffer)
           end ;;
  Ok (PyDict.update anns [("path", Json (JStr path)); ("image", image)]).

(** ** Building the vocabulary *)

(** A stable insertion sort by a key: an entry goes before the first later
    entry whose key is not smaller, so entries with equal keys keep their
    order. *)
Section StableSort.
Variables A K : Type.
Variable key : A -> K.
Variable leb : K -> K -> bool.

Fixpoint insert_by (x : A) (l : list A) : list A :=
  match l with
  | [] => [x]
  | y :: l' => if leb (key x) (key y) then x :: y :: l' else y :: insert_by x l'
  end.

Definition sort_by (l : list A) : list A := fold_right insert_by [] l.
End StableSort.

(** Ascending order of entries with integer keys. *)
Definition le_by (A : Type) (key : A -> Z) (a b : A) : Prop := (key a <= key b)%Z.

(** The keys [sorted] can order: numbers among themselves and strings among
    themselves.  (Python orders lists too; they are not modelled as keys.) *)
Definition is_num (v : json) : bool :=
  match v with
  | JInt _ | JBool _ => true
  | _ => false
  end.

Definition num_of (v : json) : Z :=
  match v with
  | JInt n => n
  | JBool true => 1%Z
  | _ => 0%Z
  end.

Definition is_str (v : json) : bool :=
  match v with
  | JStr _ => true
  | _ => false
  end.

Definition str_of (v : json) : string :=
  match v with
  | JStr s => s
  | _ => ""
  end.

(** [sorted(l, key=key)]: stable, ascending; fewer than two entries need no
    comparison, otherwise the keys must be mutually comparable. *)
Definition py_sorted {A : Type} (key : A -> json) (l : list A) : result (list A) :=
  match l with
  | [] | [_] => Ok l
  | _ =>
      if forallb (fun x => is_num (key x)) l
      then Ok (sort_by (fun x => num_of (key x)) Z.leb l)
      else if forallb (fun x => is_str (key x)) l
      then Ok (sort_by (fun x => str_of (key x)) String.leb l)
      else Raise (TypeError "unorderable sort keys")
  end.

(** Iterating over a parsed value. *)
Definition py_iter (v : json) : result (list json) :=
  match v with
  | JList xs => Ok xs
  | JDict kvs => Ok (map (fun kv => JStr (fst kv)) kvs)
  | JStr s => Ok (map (fun c => JStr (String c EmptyString)) (list_ascii_of_string s))
  | JNull | JBool _ | JInt _ => Raise (TypeError "object is not iterable")
  end.

(** [Coco._generate_categories] from the archive reader on: [archive] is the
    stream of the metadata archive's entries with their documents parsed,
    and [is_instances_file] the filter
    [path_comparator("name", f"instances_{config.split}{config.year}.json")]
    of the default configuration. *)
Definition _generate_categories (is_instances_file : string * json -> bool)
  (archive : list (string * json)) : result (list json) :=
  let dp := filter is_instances_file archive in
  match dp with
  | [] => Raise StopIteration
  | (_, meta) :: _ =>
      categories_json <- py_getitem meta "categories" ;;
      infos <- py_iter categories_json ;;
      categories_and_ids <-
        mapM (fun info => name <- py_getitem info "name" ;;
                          id <- py_getitem info "id" ;;
                          Ok (name, id)) infos ;;
      sorted <- py_sorted snd categories_and_ids ;;
      match zip_star sorted with
      | None => Raise (ValueError "not enough values to unpack (expected 2, got 0)")
      | Some (categories, _) => Ok categories
      end
  end.

(** A category entry with an integer id, as the pair the comprehension of
    [_generate_categories] makes of it. *)
Definition name_and_id (e : json * Z) : json * json := (fst e, JInt (snd e)).

(** Modelled from the spec: [path_comparator] belongs to the dataset
    utilities, which are not among the sources.  As its use in
    [_generate_categories] says, the filter keeps the entry whose path ends
    in the component [instances_{split}{year}.json]. *)
Definition instances_file_of (config : DatasetConfig) (data : string * json) : bool :=
  String.eqb (path_name (fst data))
             ("instances_" ++ split config ++ year config ++ ".json").

(** ** Dictionaries as mutable objects

    [_decode_captions_ann] copies its argument and mutates the copy.  To
    tell the two objects apart, annotation records live in a store of
    dictionary objects and are passed by address. *)
Module Heap.

Definition loc : Type := nat.

(** The dictionary objects allocated so far, by address. *)
Definition heap : Type := list (PyDict.t json).

Definition deref (h : heap) (l : loc) : option (PyDict.t json) := nth_error h l.

(** A new object takes the next free address. *)
Definition alloc (h : heap) (d : PyDict.t json) : heap * loc :=
  ((h ++ [d])%list, List.length h).

Fixpoint store (h : heap) (l : loc) (d : PyDict.t json) : heap :=
  match h, l with
  | [], _ => []
  | _ :: h', O => d :: h'
  | d0 :: h', S l' => d0 :: store h' l' d
  end.

(** A stateful computation: the store after it, and its result. *)
Definition M (A : Type) : Type := heap -> heap * result A.

Definition ret {A : Type} (a : A) : M A := fun h => (h, Ok a).

Definition bindM {A B : Type} (m : M A) (k : A -> M B) : M B :=
  fun h => match m h with
           | (h', Ok a) => k a h'
           | (h', Raise e) => (h', Raise e)
           end.

(** [d.copy()]: a new object with the same entries; an address that holds
    no dictionary has no such method. *)
Definition dict_copy (l : loc) : M loc :=
  fun h => match deref h l with
           | Some d => let (h', l') := alloc h d in (h', Ok l')
           | None => (h, Raise (AttributeError "copy"))
           end.

(** [d.pop(k)]: removes the entry from the object at [l] itself. *)
Definition dict_pop (l : loc) (k : string) : M json :=
  fun h => match deref h l with
           | Some d =>
               match PyDict.pop k d with
               | Ok (v, d') => (store h l d', Ok v)
               | Raise e => (h, Raise e)
               end
           | None => (h, Raise (AttributeError "pop"))
           end.

(** [Coco._decode_captions_ann] on objects: the local name [ann] is rebound
    to the copy, which is popped and returned. *)
Definition _decode_captions_ann (ann : loc) : M loc :=
  bindM (dict_copy ann) (fun ann' =>
  bindM (dict_pop ann' "image_id") (fun _ =>
  ret ann')).

End Heap.

(** ** The datapipe graph

    The graph is modelled on finite streams, each stage drained in turn.  The
    combinators that buffer (torchdata's [Grouper], [IterKeyZipper] and
    [UnBatcher]) and the utilities' [MappingIterator] are parameters of the
    graph; [Mapper], [Concater] and [Demultiplexer] are written out. *)

(** [Demultiplexer(dp, n, classifier_fn, drop_none=True)]: at least one
    channel is asked for; every item is classified, in stream order; an item
    without a channel is dropped and a channel outside [0, n) is refused. *)
Fixpoint push_to {A : Type} (i : nat) (x : A) (chans : list (list A)) : list (list A) :=
  match chans, i with
  | [], _ => []
  | c :: chans', O => (x :: c) :: chans'
  | c :: chans', S i' => c :: push_to i' x chans'
  end.

Fixpoint demultiplex {A : Type} (dp : list A) (num_instances : nat)
  (classifier_fn : A -> result (option nat)) : result (list (list A)) :=
  match dp with
  | [] => Ok (repeat [] num_instances)
  | x :: dp' =>
      c <- classifier_fn x ;;
      match c with
      | None => demultiplex dp' num_instances classifier_fn
      | Some i =>
          if (i <? num_instances)%nat
          then chans <- demultiplex dp' num_instances classifier_fn ;;
               Ok (push_to i x chans)
          else Raise (ValueError "classification outside the range of channels")
      end
  end.

Definition Demultiplexer {A : Type} (dp : list A) (num_instances : nat)
  (classifier_fn : A -> result (option nat)) : result (list (list A)) :=
  match num_instances with
  | O => Raise (ValueError "expected num_instances larger than 0")
  | S _ => demultiplex dp num_instances classifier_fn
  end.

Section Graph.

Variable MappingIterator : list json -> result (list (string * json)).
Variable UnBatcher : list json -> result (list json).
Variable Grouper :
  forall A : Type, list A -> (A -> result json) -> result (list (list A)).
Variable IterKeyZipper :
  forall A B : Type, list A -> list B -> (A -> result json) -> (B -> result json)
                     -> result (list (A * B)).

(** [self.categories] *)
Variable categories : list string.

(** [Coco._make_partial_anns_dp]; the entries of [meta_dp] carry their
    documents parsed ([JsonParser]). *)
Definition _make_partial_anns_dp (meta_dp : list (string * json))
  : result (list (list json * json)) :=
  let meta_dp := map snd meta_dp in
  meta_dp <- MappingIterator meta_dp ;;
  chans <- Demultiplexer meta_dp 2 (fun data => Ok (_classify_meta data)) ;;
  match chans with
  | [images_meta_dp; anns_meta_dp] =>
      images_meta_dp <- UnBatcher (map snd images_meta_dp) ;;
      anns_meta_dp <- UnBatcher (map snd anns_meta_dp) ;;
      partial_anns_dp <- Grouper anns_meta_dp (fun ann => py_getitem ann "image_id") ;;
      IterKeyZipper partial_anns_dp images_meta_dp
        (fun anns => match anns with
                     | ann :: _ => py_getitem ann "image_id"
                     | [] => Raise (IndexError "list index out of range")
                     end)
        (fun image => py_getitem image "id")
  | _ => Raise (ValueError "wrong number of values to unpack")
  end.

(** [Coco._make_anns_dp]; the entries of the metadata archive arrive from
    [ZipArchiveReader]. *)
Definition _make_anns_dp (meta_dp : list (string * json)) (config : DatasetConfig)
  : result (list (json * PyDict.t json)) :=
  let ann_types := selected_ann_types config in
  partial_anns_dps <-
    Demultiplexer meta_dp (List.length ann_types) (meta_file_classifier config) ;;
  partial_anns_dps <- mapM _make_partial_anns_dp partial_anns_dps ;;
  let anns_dp := List.concat partial_anns_dps in
  anns_dp <- Grouper anns_dp (fun data => py_getitem (snd data) "id") ;;
  mapM (fun data => _precollate_anns data ann_types) anns_dp.

(** [Coco._make_datapipe]: the samples a full pass yields, or the exception
    that ends it. *)
Definition _make_datapipe (images_dp : list (string * string))
  (meta_dp : list (string * json)) (config : DatasetConfig)
  (decoder : option (string -> result pyobj)) : result (list (PyDict.t pyobj)) :=
  anns_dp <- _make_anns_dp meta_dp config ;;
  dp <- IterKeyZipper anns_dp images_dp
          (fun data => Ok (fst data))
          (fun data => Ok (JStr (path_name (fst data)))) ;;
  mapM (fun data => _collate_and_decode_sample categories data decoder) dp.

End Graph.

(** ** Options and resources *)

(** The value of an option: a flag or a name. *)
Inductive optval : Type :=
| OptBool (b : bool)
| OptStr (s : string).

Definition optval_eqb (a b : optval) : bool :=
  match a, b with
  | OptBool x, OptBool y => Bool.eqb x y
  | OptStr x, OptStr y => String.eqb x y
  | _, _ => false
  end.

(** [Coco._ANN_TYPE_OPTIONS]:
    [dict(zip(_ANN_TYPES, [(default, not default) for default in _ANN_TYPE_DEFAULTS]))] *)
Definition _ANN_TYPE_OPTIONS : PyDict.t (list optval) :=
  PyDict.of_pairs
    (combine _ANN_TYPES
             (map (fun default => [OptBool default; OptBool (negb default)])
                  _ANN_TYPE_DEFAULTS)).

(** The member of [DatasetType] the dataset is of. *)
Inductive DatasetType : Type :=
| IMAGE.

(** What [_make_info] passes to [DatasetInfo]: the name, the type, the file
    of the categories (in the directory of the built-in datasets), the
    homepage and the valid options. *)
Record DatasetInfo : Type := {
  info_name : string;
  info_type : DatasetType;
  info_categories : string;
  info_homepage : string;
  valid_options : PyDict.t (list optval)
}.

(** [Coco._make_info] *)
Definition _make_info : DatasetInfo :=
  {| info_name := "coco";
     info_type := IMAGE;
     info_categories := "coco.categories";
     info_homepage := "https://cocodataset.org/";
     valid_options :=
       PyDict.update _ANN_TYPE_OPTIONS
         [("split", [OptStr "train"; OptStr "val"]);
          ("year", [OptStr "2017"; OptStr "2014"])] |}.

(** The value [v] is one of the valid values of the option [k]. *)
Definition option_allowed (info : DatasetInfo) (k : string) (v : optval) : bool :=
  match PyDict.get k (valid_options info) with
  | Some values => existsb (optval_eqb v) values
  | None => false
  end.

(** The options a configuration holds. *)
Definition config_options (config : DatasetConfig) : list (string * optval) :=
  [("instances", OptBool (instances config));
   ("captions", OptBool (captions config));
   ("split", OptStr (split config));
   ("year", OptStr (year config))].

(** What [resources] passes to [HttpResource]. *)
Record HttpResource : Type := { url : string; sha256 : string }.

(** [Coco._IMAGE_URL_BASE] *)
Definition _IMAGE_URL_BASE : string := "http://images.cocodataset.org/zips".

(** [Coco._IMAGES_CHECKSUMS], keyed by (year, split). *)
Definition _IMAGES_CHECKSUMS : list ((string * string) * string) :=
  [(("2014", "train"),
    "ede4087e640bddba550e090eae701092534b554b42b05ac33f0300b984b31775");
   (("2014", "val"),
    "fe9be816052049c34717e077d9e34aa60814a55679f804cd043e3cbee3b9fde0");
   (("2017", "train"),
    "69a8bb58ea5f8f99d24875f21416de2e9ded3178e903f1f7603e283b9e06d929");
   (("2017", "val"),
    "4f7e2ccb2866ec5041993c9cf2a952bbed69647b115d0f74da7ce8f4bef82f05")].

(** [Coco._META_URL_BASE] *)
Definition _META_URL_BASE : string := "http://images.cocodataset.org/annotations".

(** [Coco._META_CHECKSUMS] *)
Definition _META_CHECKSUMS : PyDict.t string :=
  [("2014", "031296bbc80c45a1d1f76bf9a90ead27e94e99ec629208449507a4917a3bf009");
   ("2017", "113a836d90195ee1f884e704da6304dfaaecff1f023f49b6ca93c4aaae470268")].

(** [d[(a, b)]] for a dictionary keyed by pairs of strings; a missing key
    is reported as the pair is printed. *)
Fixpoint get_pair {V : Type} (k : string * string) (d : list ((string * string) * V))
  : option V :=
  match d with
  | [] => None
  | (k', v) :: d' =>
      if String.eqb (fst k) (fst k') && String.eqb (snd k) (snd k')
      then Some v else get_pair k d'
  end.

Definition getitem_pair {V : Type} (k : string * string)
  (d : list ((string * string) * V)) : result V :=
  match get_pair k d with
  | Some v => Ok v
  | None => Raise (KeyError ("(" ++ fst k ++ ", " ++ snd k ++ ")"))
  end.

(** [Coco.resources] *)
Definition resources (config : DatasetConfig) : result (list HttpResource) :=
  images_sha256 <- getitem_pair (year config, split config) _IMAGES_CHECKSUMS ;;
  let images :=
    {| url := _IMAGE_URL_BASE ++ "/" ++ split config ++ year config ++ ".zip";
       sha256 := images_sha256 |} in
  meta_sha256 <- PyDict.getitem (year config) _META_CHECKSUMS ;;
  let meta :=
    {| url := _META_URL_BASE ++ "/annotations_trainval" ++ year config ++ ".zip";
       sha256 := meta_sha256 |} in
  Ok [images; meta].

(** Keys of the JSON document's top level, as [_classify_meta] tells them
    apart. *)
Definition keyed (k : string) (data : string * json) : bool :=
  String.eqb (fst data) k.

(** No character of [s] is a path separator. *)
Definition no_separator (s : string) : bool :=
  string_forall (fun c => negb (Ascii.eqb c "/")) s.

(** A parsed value that is a list. *)
Definition is_list (v : json) : bool :=
  match v with
  | JList _ => true
  | _ => false
  end.

(** ** The inputs of the end-to-end scenario *)

Definition scenario_vocabulary : list string :=
  ["cat"; "dog"; "bird"; "fish"; "cow"; "person"].

Definition scenario_annotation : json :=
  JDict [("id", JInt 10); ("image_id", JInt 1); ("area", JInt 100);
         ("iscrowd", JInt 0);
         ("bbox", JList [JInt 0; JInt 0; JInt 10; JInt 10]);
         ("category_id", JInt 5)].

Definition scenario_image : json :=
  JDict [("id", JInt 1); ("file_name", JStr "000001.jpg")].

Definition scenario_document : json :=
  JDict [("images", JList [scenario_image]);
         ("annotations", JList [scenario_annotation])].

(** The default configuration: the instances alone, the first split and
    year. *)
Definition scenario_config : DatasetConfig :=
  {| instances := true; captions := false; split := "train"; year := "2017" |}.

(** A metadata archive with three categories, listed out of order. *)
Definition scenario_categories_archive : list (string * json) :=
  [("annotations/captions_train2017.json", JDict []);
   ("annotations/instances_train2017.json",
    JDict [("categories",
            JList [JDict [("supercategory", JStr "animal"); ("id", JInt 17);
                          ("name", JStr "cat")];
                   JDict [("supercategory", JStr "person"); ("id", JInt 1);
                          ("name", JStr "person")];
                   JDict [("supercategory", JStr "animal"); ("id", JInt 16);
                          ("name", JStr "bird")]])])].

(** The category entries of a document that lists them in ascending order
    of id, and the document. *)
Definition scenario_sorted_infos : list json :=
  [JDict [("id", JInt 1); ("name", JStr "person")];
   JDict [("id", JInt 16); ("name", JStr "bird")];
   JDict [("id", JInt 17); ("name", JStr "cat")]].

Definition scenario_sorted_document : json :=
  JDict [("categories", JList scenario_sorted_infos)].

(** A caption record of the same image, and a configuration that selects
    both annotation types. *)
Definition scenario_caption : json :=
  JDict [("id", JInt 7); ("image_id", JInt 1); ("caption", JStr "a cat")].

Definition both_types_config : DatasetConfig :=
  {| instances := true; captions := true; split := "train"; year := "2017" |}.

(** The sample the scenario expects. *)
Definition scenario_expected_instance : pyobj :=
  Dict [("area", Json (JInt 100)); ("iscrowd", Json (JBool false));
        ("bbox", Tensor (JList [JInt 0; JInt 0; JInt 10; JInt 10]));
        ("category", Json (JInt 5)); ("id", Json (JInt 10))].

(** * Properties *)

(** ** The result monad *)

Lemma bind_Ok_inv (A B : Type) (m : result A) (k : A -> result B) (b : B) :
  bind m k = Ok b -> exists a, m = Ok a /\ k a = Ok b.
Proof.
  destruct m as [a | e]; simpl; intros H.
  - exists a. split; [reflexivity | exact H].
  - discriminate H.
Qed.

Lemma mapM_Ok_Forall2 (A B : Type) (f : A -> result B) (l : list A) (r : list B) :
  mapM f l = Ok r -> Forall2 (fun x y => f x = Ok y) l r.
Proof.
  revert r. induction l as [| x l IH]; simpl; intros r H.
  - injection H as <-. constructor.
  - apply bind_Ok_inv in H. destruct H as [y [Hy H]].
    apply bind_Ok_inv in H. destruct H as [ys [Hys H]].
    injection H as <-. constructor; [exact Hy | apply IH; exact Hys].
Qed.

(** ** Dictionaries *)

Module PyDictFacts.
Import PyDict.
Section Facts.
Variable V : Type.
Implicit Types (d : PyDict.t V) (k : string) (v : V).

Lemma get_set_eq k v d : get k (set k v d) = Some v.
Proof.
  induction d as [| [k' v'] d IH]; simpl.
  - rewrite String.eqb_refl. reflexivity.
  - destruct (String.eqb k k') eqn:E; simpl; rewrite E; [reflexivity | exact IH].
Qed.

Lemma get_set_ne k k' v d : k' <> k -> get k' (set k v d) = get k' d.
Proof.
  intros Hne. induction d as [| [k0 v0] d IH]; simpl.
  - apply String.eqb_neq in Hne. rewrite Hne. reflexivity.
  - destruct (String.eqb k k0) eqn:E; simpl.
    + apply String.eqb_eq in E. subst k0.
      apply String.eqb_neq in Hne. rewrite Hne. reflexivity.
    + destruct (String.eqb k' k0); [reflexivity | exact IH].
Qed.

Lemma get_remove_eq k d : get k (remove k d) = None.
Proof.
  unfold remove. induction d as [| [k' v'] d IH]; simpl.
  - reflexivity.
  - destruct (String.eqb k k') eqn:E; simpl; [exact IH |].
    rewrite E. exact IH.
Qed.

Lemma get_remove_ne k k' d : k' <> k -> get k' (remove k d) = get k' d.
Proof.
  intros Hne. unfold remove. induction d as [| [k0 v0] d IH]; simpl.
  - reflexivity.
  - destruct (String.eqb k k0) eqn:E; simpl.
    + apply String.eqb_eq in E. subst k0.
      apply String.eqb_neq in Hne. rewrite Hne. exact IH.
    + destruct (String.eqb k' k0); [reflexivity | exact IH].
Qed.

Lemma get_None_iff k d : get k d = None <-> ~ In k (keys d).
Proof.
  induction d as [| [k' v'] d IH]; simpl.
  - tauto.
  - destruct (String.eqb k k') eqn:E.
    + apply String.eqb_eq in E. subst k'. split; [discriminate | tauto].
    + apply String.eqb_neq in E. rewrite IH. split.
      * intros H [H1 | H1]; [congruence | tauto].
      * tauto.
Qed.


Lemma keys_remove k d k' : In k' (keys (remove k d)) <-> k' <> k /\ In k' (keys d).
Proof.
  unfold remove. induction d as [| [k0 v0] d IH]; simpl.
  - tauto.
  - destruct (String.eqb k k0) eqn:E; simpl.
    + apply String.eqb_eq in E. subst k0. rewrite IH. intuition congruence.
    + apply String.eqb_neq in E. rewrite IH. intuition congruence.
Qed.


Lemma get_update_notin d kw k : ~ In k (keys kw) -> get k (update d kw) = get k d.
Proof.
  unfold update. revert d. induction kw as [| [k0 v0] kw IH]; simpl; intros d Hk.
  - reflexivity.
  - rewrite IH by tauto. apply get_set_ne. intros ->. tauto.
Qed.

Lemma get_update_in d kw k v :
  NoDup (keys kw) -> get k kw = Some v -> get k (update d kw) = Some v.
Proof.
  unfold update. revert d. induction kw as [| [k0 v0] kw IH]; simpl; intros d Hnd Hk.
  - discriminate.
  - inversion Hnd as [| ? ? Hnotin Hnd']; subst.
    destruct (String.eqb k k0) eqn:E.
    + apply String.eqb_eq in E. subst k0. injection Hk as ->.
      change (fold_left (fun d kv => set (fst kv) (snd kv) d) kw (set k v d))
        with (update (set k v d) kw).
      rewrite get_update_notin by exact Hnotin. apply get_set_eq.
    + apply IH; assumption.
Qed.


Lemma get_of_pairs (l : list (string * V)) k : NoDup (keys l) -> get k (of_pairs l) = get k l.
Proof.
  intros Hnd. change (of_pairs l) with (update [] l).
  destruct (get k l) as [v |] eqn:E.
  - apply get_update_in; assumption.
  - rewrite get_update_notin; [reflexivity |]. apply get_None_iff. exact E.
Qed.

End Facts.
End PyDictFacts.

(** ** Subscripts *)

Lemma py_getitem_Ok_inv (ann : json) (k : string) (v : json) :
  py_getitem ann k = Ok v -> exists d, ann = JDict d /\ PyDict.get k d = Some v.
Proof.
  destruct ann as [| b | n | s | xs | d]; simpl; try discriminate.
  unfold PyDict.getitem. destruct (PyDict.get k d) as [v' |] eqn:E; [| discriminate].
  intros [= ->]. exists d. split; [reflexivity | exact E].
Qed.

Lemma py_getitem_dict (d : PyDict.t json) (k : string) (v : json) :
  PyDict.get k d = Some v -> py_getitem (JDict d) k = Ok v.
Proof. intros H. simpl. unfold PyDict.getitem. rewrite H. reflexivity. Qed.

Lemma py_getitem_missing (d : PyDict.t json) (k : string) :
  PyDict.get k d = None -> py_getitem (JDict d) k = Raise (KeyError k).
Proof. intros H. simpl. unfold PyDict.getitem. rewrite H. reflexivity. Qed.

(** ** The classifier by structural key *)

(** C8: [_classify_meta] sends the key ["images"] to channel 0, the key
    ["annotations"] to channel 1 and every other key to no channel, whatever
    the value paired with the key.  As a function of its argument it is
    total and deterministic. *)
Theorem classify_meta_by_key :
  (forall v : json, _classify_meta ("images", v) = Some 0)
  /\ (forall v : json, _classify_meta ("annotations", v) = Some 1)
  /\ (forall (key : string) (v : json),
         key <> "images" -> key <> "annotations" -> _classify_meta (key, v) = None).
Proof.
  split; [| split].
  - intros v. reflexivity.
  - intros v. reflexivity.
  - intros key v H1 H2. unfold _classify_meta.
    apply String.eqb_neq in H1. apply String.eqb_neq in H2.
    rewrite H1, H2. reflexivity.
Qed.

Lemma classify_meta_by_key_witness :
  _classify_meta ("licenses", JList []) = None.
Proof.
  apply (proj2 (proj2 classify_meta_by_key) "licenses" (JList []));
    intros H; discriminate H.
Defined.

(** ** The metadata file pattern *)










(** ** The file classifier called as declared *)

Lemma get_combine_seq (l : list string) (k : string) (start : nat) :
  PyDict.get k (combine l (seq start (List.length l)))
  = option_map (fun i => start + i) (index_of k l).
Proof.
  revert start. induction l as [| x l IH]; intros start; simpl.
  - reflexivity.
  - rewrite (String.eqb_sym x k). destruct (String.eqb k x).
    + simpl. f_equal. lia.
    + rewrite IH. destruct (index_of k l) as [i |]; simpl; [f_equal; lia | reflexivity].
Qed.

Lemma keys_combine_seq (l : list string) (start : nat) :
  PyDict.keys (combine l (seq start (List.length l))) = l.
Proof.
  revert start. induction l as [| x l IH]; intros start; simpl.
  - reflexivity.
  - f_equal. apply IH.
Qed.

(** The channel of a type is its position among the selected types. *)
Lemma get_channel_table (l : list string) (k : string) :
  NoDup l -> PyDict.get k (channel_table l) = index_of k l.
Proof.
  intros Hnd. unfold channel_table.
  rewrite PyDictFacts.get_of_pairs by (rewrite keys_combine_seq; exact Hnd).
  rewrite get_combine_seq. destruct (index_of k l); reflexivity.
Qed.

Lemma selected_ann_types_NoDup (config : DatasetConfig) :
  NoDup (selected_ann_types config).
Proof.
  unfold selected_ann_types. apply NoDup_filter.
  repeat constructor; simpl; intuition discriminate.
Qed.

Lemma index_of_None_iff (k : string) (l : list string) :
  index_of k l = None <-> ~ In k l.
Proof.
  induction l as [| x l IH]; simpl.
  - tauto.
  - destruct (String.eqb_spec x k) as [-> | Hne].
    + split; [discriminate | tauto].
    + destruct (index_of k l) as [i |].
      * split; [discriminate |]. intros H. exfalso.
        destruct (in_dec string_dec k l) as [Hin | Hnin].
        -- apply H. right. exact Hin.
        -- apply IH in Hnin. discriminate Hnin.
      * split; [| reflexivity]. intros _ [H | H]; [congruence |].
        apply (proj1 IH); [reflexivity | exact H].
Qed.

(** X1: with the channel table passed under [ann_type_idcs], an entry whose name
    does not match the pattern, or matches with another split or year, has no
    channel; a matching entry has the channel of its annotation type, which
    is the position of the type among the selected ones, and none when the
    type is not selected. *)
Theorem classifiy_meta_files_channels (A : Type) (config : DatasetConfig)
  (data : string * A) :
  let ann_types := selected_ann_types config in
  let classify :=
    _classifiy_meta_files data (split config) (year config) (channel_table ann_types) in
  (_META_FILE_PATTERN_match (path_name (fst data)) = None -> classify = None)
  /\ (forall m, _META_FILE_PATTERN_match (path_name (fst data)) = Some m ->
                Match.split m <> split config \/ Match.year m <> year config ->
                classify = None)
  /\ (forall m, _META_FILE_PATTERN_match (path_name (fst data)) = Some m ->
                Match.split m = split config -> Match.year m = year config ->
                classify = index_of (Match.ann_type m) ann_types
                /\ (config_enabled config (Match.ann_type m) = false ->
                    classify = None)).
Proof.
  intros ann_types classify. subst classify. unfold _classifiy_meta_files.
  split; [| split].
  - intros ->. reflexivity.
  - intros m -> [H | H]; apply String.eqb_neq in H; rewrite H; simpl.
    + reflexivity.
    + rewrite orb_true_r. reflexivity.
  - intros m -> Hs Hy. rewrite Hs, Hy, !String.eqb_refl. simpl.
    rewrite get_channel_table by apply selected_ann_types_NoDup.
    split; [reflexivity |].
    intros Hoff. apply index_of_None_iff. subst ann_types.
    unfold selected_ann_types. rewrite filter_In. intros [_ H]. congruence.
Qed.

Lemma classifiy_meta_files_channels_witness :
  _classifiy_meta_files ("annotations/captions_train2017.json", tt) "train" "2017"
    (channel_table ["instances"; "captions"])
  = Some 1.
Proof.
  refine (proj1 (proj2 (proj2 (@classifiy_meta_files_channels unit both_types_config
            ("annotations/captions_train2017.json", tt)))
            {| Match.ann_type := "captions"; Match.split := "train";
               Match.year := "2017" |} eq_refl eq_refl eq_refl)).
Defined.

(** ** The classifier by file name *)

(** The first keyword that names no parameter ends the call. *)
Lemma bind_keywords_unexpected (params : list string) (kwargs : list (string * kwarg))
  (k : string) (v : kwarg) :
  find (fun kv => negb (existsb (String.eqb (fst kv)) params)) kwargs = Some (k, v) ->
  bind_keywords params kwargs
  = Raise (TypeError ("got an unexpected keyword argument " ++ k)).
Proof.
  intros H. unfold bind_keywords. rewrite H. reflexivity.
Qed.

(** C3, on every input: the classifier as [_make_anns_dp] configures it
    raises [TypeError], for every configuration and every archive entry,
    matching or not: the call passes the channel table under the keyword
    [type_idcs], which [_classifiy_meta_files] does not accept. *)
Theorem meta_file_classifier_raises (A : Type) (config : DatasetConfig)
  (data : string * A) :
  meta_file_classifier config data
  = Raise (TypeError "got an unexpected keyword argument type_idcs").
Proof.
  unfold meta_file_classifier, call_classifiy_meta_files.
  rewrite bind_keywords_unexpected
    with (k := "type_idcs") (v := KwIdcs (channel_table (selected_ann_types config))).
  - reflexivity.
  - reflexivity.
Qed.

(** Called with the keywords it declares, the classifier runs its body. *)
Lemma call_classifiy_meta_files_declared (A : Type) (data : string * A)
  (split year : string) (idcs : PyDict.t nat) :
  call_classifiy_meta_files data
    [("split", KwStr split); ("year", KwStr year); ("ann_type_idcs", KwIdcs idcs)]
  = Ok (_classifiy_meta_files data split year idcs).
Proof.
  reflexivity.
Qed.

(** ** The annotation decoders *)

(** A record decoded by [_decode_instances_ann] is a dictionary that holds
    all five fields, and the result is built from exactly these. *)
Lemma decode_instances_Ok_inv (categories : list string) (ann : json) (r : pyobj) :
  _decode_instances_ann categories ann = Ok r ->
  exists d area iscrowd bbox category_id id category,
    ann = JDict d
    /\ PyDict.get "area" d = Some area
    /\ PyDict.get "iscrowd" d = Some iscrowd
    /\ PyDict.get "bbox" d = Some bbox
    /\ PyDict.get "category_id" d = Some category_id
    /\ PyDict.get "id" d = Some id
    /\ torch_tensor bbox = Ok (Tensor bbox)
    /\ py_index categories category_id = Ok category
    /\ r = Dict [("area", Json area);
                 ("iscrowd", Json (JBool (py_bool iscrowd)));
                 ("bbox", Tensor bbox);
                 ("category", Json (JInt (Z.of_nat category)));
                 ("id", Json id)].
Proof.
  unfold _decode_instances_ann. intros H.
  apply bind_Ok_inv in H. destruct H as [area [Harea H]].
  apply bind_Ok_inv in H. destruct H as [iscrowd [Hcrowd H]].
  apply bind_Ok_inv in H. destruct H as [bbox [Hbbox H]].
  apply bind_Ok_inv in H. destruct H as [t [Ht H]].
  apply bind_Ok_inv in H. destruct H as [cid [Hcid H]].
  apply bind_Ok_inv in H. destruct H as [cat [Hcat H]].
  apply bind_Ok_inv in H. destruct H as [id [Hid H]].
  injection H as <-.
  apply py_getitem_Ok_inv in Harea. destruct Harea as [d [-> Harea]].
  apply py_getitem_Ok_inv in Hcrowd. destruct Hcrowd as [d1 [E1 Hcrowd]].
  apply py_getitem_Ok_inv in Hbbox. destruct Hbbox as [d2 [E2 Hbbox]].
  apply py_getitem_Ok_inv in Hcid. destruct Hcid as [d3 [E3 Hcid]].
  apply py_getitem_Ok_inv in Hid. destruct Hid as [d4 [E4 Hid]].
  injection E1 as <-. injection E2 as <-. injection E3 as <-. injection E4 as <-.
  assert (Ht' : t = Tensor bbox).
  { unfold torch_tensor in Ht. destruct (tensor_shape bbox); [| discriminate].
    injection Ht as <-. reflexivity. }
  subst t.
  exists d, area, iscrowd, bbox, cid, id, cat.
  repeat split; assumption || reflexivity.
Qed.

Lemma decode_captions_dict (d : PyDict.t json) :
  _decode_captions_ann (JDict d)
  = match PyDict.get "image_id" d with
    | Some _ => Ok (Json (JDict (PyDict.remove "image_id" d)))
    | None => Raise (KeyError "image_id")
    end.
Proof.
  unfold _decode_captions_ann. simpl. unfold PyDict.pop.
  destruct (PyDict.get "image_id" d); reflexivity.
Qed.

(** C4: a record that lacks one of the fields [area], [iscrowd], [bbox],
    [category_id] and [id] makes [_decode_instances_ann] raise: no result, and
    so no partial result, is returned.  A record that lacks [image_id] makes
    [_decode_captions_ann] raise [KeyError]. *)
Theorem decode_missing_field_raises :
  (forall (categories : list string) (d : PyDict.t json) (k : string),
      In k ["area"; "iscrowd"; "bbox"; "category_id"; "id"] ->
      PyDict.get k d = None ->
      raises (_decode_instances_ann categories (JDict d)))
  /\ (forall d : PyDict.t json,
         PyDict.get "image_id" d = None ->
         _decode_captions_ann (JDict d) = Raise (KeyError "image_id")).
Proof.
  split.
  - intros categories d k Hk Hmiss.
    destruct (_decode_instances_ann categories (JDict d)) as [r | e] eqn:E.
    + exfalso. apply decode_instances_Ok_inv in E.
      destruct E as (d' & area & iscrowd & bbox & cid & id & cat & Ed & H1 & H2
                     & H3 & H4 & H5 & _).
      injection Ed as <-.
      simpl in Hk.
      destruct Hk as [<- | [<- | [<- | [<- | [<- | []]]]]]; congruence.
    + exists e. reflexivity.
  - intros d Hmiss. rewrite decode_captions_dict, Hmiss. reflexivity.
Qed.

Lemma decode_missing_field_raises_witness :
  raises (_decode_instances_ann scenario_vocabulary
            (JDict [("id", JInt 10); ("image_id", JInt 1); ("area", JInt 100);
                    ("iscrowd", JInt 0); ("category_id", JStr "person")]))
  /\ _decode_captions_ann (JDict [("id", JInt 7); ("caption", JStr "a cat")])
     = Raise (KeyError "image_id").
Proof.
  split.
  - apply (proj1 decode_missing_field_raises scenario_vocabulary _ "bbox").
    + simpl. tauto.
    + reflexivity.
  - apply (proj2 decode_missing_field_raises). reflexivity.
Defined.

(** The exception names the first field found missing. *)
Lemma decode_instances_missing_area (categories : list string) (d : PyDict.t json) :
  PyDict.get "area" d = None ->
  _decode_instances_ann categories (JDict d) = Raise (KeyError "area").
Proof.
  intros H. unfold _decode_instances_ann.
  rewrite (py_getitem_missing _ _ H). reflexivity.
Qed.

(** C5: for every record, that is every dictionary that holds the foreign
    key [image_id], [_decode_captions_ann] returns the record without that
    key: [image_id] is gone, every other key reads as before, and the
    entries left are those of the input, in its order. *)
Theorem decode_captions_removes_image_id (d : PyDict.t json) (v : json) :
  PyDict.get "image_id" d = Some v ->
  _decode_captions_ann (JDict d) = Ok (Json (JDict (PyDict.remove "image_id" d)))
  /\ PyDict.get "image_id" (PyDict.remove "image_id" d) = None
  /\ (forall k, k <> "image_id" ->
                PyDict.get k (PyDict.remove "image_id" d) = PyDict.get k d)
  /\ PyDict.remove "image_id" d
     = filter (fun kv => negb (String.eqb "image_id" (fst kv))) d.
Proof.
  intros H. repeat split.
  - rewrite decode_captions_dict, H. reflexivity.
  - apply PyDictFacts.get_remove_eq.
  - intros k Hk. apply PyDictFacts.get_remove_ne. exact Hk.
Qed.

Lemma decode_captions_removes_image_id_witness :
  _decode_captions_ann
    (JDict [("id", JInt 7); ("image_id", JInt 1); ("caption", JStr "a cat")])
  = Ok (Json (JDict [("id", JInt 7); ("caption", JStr "a cat")])).
Proof.
  apply (@decode_captions_removes_image_id
           [("id", JInt 7); ("image_id", JInt 1); ("caption", JStr "a cat")]
           (JInt 1)).
  reflexivity.
Defined.

(** No integer is an element of a vocabulary of names. *)
Lemma py_index_int (categories : list string) (n : Z) :
  py_index categories (JInt n) = Raise (ValueError "value is not in the sequence").
Proof.
  reflexivity.
Qed.

(** A record in the dataset's own format, its [category_id] an integer, is
    never decoded. *)
Lemma decode_instances_int_category_raises (categories : list string)
  (d : PyDict.t json) (n : Z) :
  PyDict.get "category_id" d = Some (JInt n) ->
  raises (_decode_instances_ann categories (JDict d)).
Proof.
  intros Hcid.
  destruct (_decode_instances_ann categories (JDict d)) as [r | e] eqn:E.
  - exfalso. apply decode_instances_Ok_inv in E.
    destruct E as (d' & area & iscrowd & bbox & cid & id & cat & Ed & _ & _ & _
                   & Hcid' & _ & _ & Hcat & _).
    injection Ed as <-. rewrite Hcid in Hcid'. injection Hcid' as <-.
    rewrite py_index_int in Hcat. discriminate Hcat.
  - exists e. reflexivity.
Qed.

(** X3: the vocabulary lookup is by name: a record that holds the five fields,
    a box [torch.tensor] accepts and, as [category_id], a name of the
    vocabulary decodes to the normalised record, its category the position
    of that name. *)
Theorem decode_instances_returns (categories : list string) (d : PyDict.t json)
  (area iscrowd bbox id : json) (name : string) (category : nat) (shape : list nat) :
  PyDict.get "area" d = Some area ->
  PyDict.get "iscrowd" d = Some iscrowd ->
  PyDict.get "bbox" d = Some bbox ->
  tensor_shape bbox = Some shape ->
  PyDict.get "category_id" d = Some (JStr name) ->
  index_of name categories = Some category ->
  PyDict.get "id" d = Some id ->
  _decode_instances_ann categories (JDict d)
  = Ok (Dict [("area", Json area);
              ("iscrowd", Json (JBool (py_bool iscrowd)));
              ("bbox", Tensor bbox);
              ("category", Json (JInt (Z.of_nat category)));
              ("id", Json id)]).
Proof.
  intros Harea Hcrowd Hbbox Hshape Hcid Hcat Hid.
  unfold _decode_instances_ann.
  rewrite (py_getitem_dict _ _ Harea), (py_getitem_dict _ _ Hcrowd),
    (py_getitem_dict _ _ Hbbox), (py_getitem_dict _ _ Hcid),
    (py_getitem_dict _ _ Hid).
  cbn [bind]. unfold torch_tensor. rewrite Hshape. cbn [bind py_index].
  rewrite Hcat. reflexivity.
Qed.

Lemma decode_instances_returns_witness :
  _decode_instances_ann scenario_vocabulary
    (JDict [("id", JInt 10); ("image_id", JInt 1); ("area", JInt 100);
            ("iscrowd", JInt 0);
            ("bbox", JList [JInt 0; JInt 0; JInt 10; JInt 10]);
            ("category_id", JStr "person")])
  = Ok scenario_expected_instance.
Proof.
  exact (@decode_instances_returns scenario_vocabulary
           [("id", JInt 10); ("image_id", JInt 1); ("area", JInt 100);
            ("iscrowd", JInt 0);
            ("bbox", JList [JInt 0; JInt 0; JInt 10; JInt 10]);
            ("category_id", JStr "person")]
           (JInt 100) (JInt 0) (JList [JInt 0; JInt 0; JInt 10; JInt 10])
           (JInt 10) "person" 5 [4]
           eq_refl eq_refl eq_refl eq_refl eq_refl eq_refl eq_refl).
Defined.

(** ** The decoder works on a copy *)

Lemma deref_alloc_old (h : Heap.heap) (d d' : PyDict.t json) (l : Heap.loc) :
  Heap.deref h l = Some d -> Heap.deref (fst (Heap.alloc h d')) l = Some d.
Proof.
  unfold Heap.deref, Heap.alloc. simpl. intros H.
  rewrite nth_error_app1; [exact H |].
  apply nth_error_Some. congruence.
Qed.

Lemma deref_alloc_new (h : Heap.heap) (d : PyDict.t json) :
  Heap.deref (fst (Heap.alloc h d)) (snd (Heap.alloc h d)) = Some d.
Proof.
  unfold Heap.deref, Heap.alloc. simpl.
  rewrite nth_error_app2 by apply Nat.le_refl.
  rewrite Nat.sub_diag. reflexivity.
Qed.

Lemma deref_store_ne (h : Heap.heap) (d : PyDict.t json) (l l' : Heap.loc) :
  l' <> l -> Heap.deref (Heap.store h l d) l' = Heap.deref h l'.
Proof.
  unfold Heap.deref. revert l l'.
  induction h as [| d0 h IH]; intros l l' Hne; simpl.
  - reflexivity.
  - destruct l as [| l]; destruct l' as [| l']; simpl; try reflexivity.
    + congruence.
    + apply IH. congruence.
Qed.

Lemma deref_store_eq (h : Heap.heap) (d d0 : PyDict.t json) (l : Heap.loc) :
  Heap.deref h l = Some d0 -> Heap.deref (Heap.store h l d) l = Some d.
Proof.
  unfold Heap.deref. revert l.
  induction h as [| d1 h IH]; intros l; simpl.
  - destruct l; discriminate.
  - destruct l as [| l]; simpl; [reflexivity | apply IH].
Qed.

Lemma deref_lt (h : Heap.heap) (d : PyDict.t json) (l : Heap.loc) :
  Heap.deref h l = Some d -> l < List.length h.
Proof. unfold Heap.deref. intros H. apply nth_error_Some. congruence. Qed.

(** What the decoder does to the store: it allocates the copy at the next
    free address and, when the copy holds [image_id], pops it there. *)
Lemma heap_decode_captions_run (h : Heap.heap) (ann : Heap.loc) (d : PyDict.t json) :
  Heap.deref h ann = Some d ->
  Heap._decode_captions_ann ann h
  = match PyDict.get "image_id" d with
    | Some _ =>
        (Heap.store (h ++ [d])%list (List.length h) (PyDict.remove "image_id" d),
         Ok (List.length h))
    | None => ((h ++ [d])%list, Raise (KeyError "image_id"))
    end.
Proof.
  intros H. unfold Heap._decode_captions_ann, Heap.bindM, Heap.dict_copy.
  rewrite H. simpl. unfold Heap.dict_pop.
  change (Heap.deref (h ++ [d])%list (List.length h))
    with (Heap.deref (fst (Heap.alloc h d)) (snd (Heap.alloc h d))).
  rewrite deref_alloc_new. unfold PyDict.pop.
  destruct (PyDict.get "image_id" d); reflexivity.
Qed.

(** C10: [_decode_captions_ann] leaves its argument as it was.  Whatever the
    store and the record passed, after the call the record's object holds
    the entries it held before, [image_id] included, and so does every other
    object that existed; the dictionary returned is a new object. *)
Theorem heap_decode_captions_keeps_argument
  (h h' : Heap.heap) (ann : Heap.loc) (d : PyDict.t json) (r : result Heap.loc) :
  Heap.deref h ann = Some d ->
  Heap._decode_captions_ann ann h = (h', r) ->
  Heap.deref h' ann = Some d
  /\ (forall l d0, Heap.deref h l = Some d0 -> Heap.deref h' l = Some d0)
  /\ (forall ann', r = Ok ann' ->
        ann' <> ann
        /\ Heap.deref h ann' = None
        /\ Heap.deref h' ann' = Some (PyDict.remove "image_id" d)).
Proof.
  intros Hann Hrun.
  rewrite (heap_decode_captions_run _ _ Hann) in Hrun.
  assert (Hold : forall l d0, Heap.deref h l = Some d0 -> Heap.deref h' l = Some d0).
  { intros l d0 Hl. pose proof (deref_lt _ _ Hl) as Hlt.
    destruct (PyDict.get "image_id" d); injection Hrun as <- <-.
    - rewrite deref_store_ne by lia.
      apply (@deref_alloc_old h d0 d l Hl).
    - apply (@deref_alloc_old h d0 d l Hl). }
  split; [apply Hold; exact Hann |]. split; [exact Hold |].
  intros ann' ->.
  destruct (PyDict.get "image_id" d); [| discriminate].
  injection Hrun as <- <-.
  pose proof (deref_lt _ _ Hann) as Hlt.
  split; [lia |]. split.
  - unfold Heap.deref. apply nth_error_None. apply Nat.le_refl.
  - apply deref_store_eq with (d0 := d).
    exact (deref_alloc_new h d).
Qed.

Lemma heap_decode_captions_keeps_argument_witness :
  Heap.deref
    (fst (Heap._decode_captions_ann 0
            [[("id", JInt 7); ("image_id", JInt 1); ("caption", JStr "a cat")]]))
    0
  = Some [("id", JInt 7); ("image_id", JInt 1); ("caption", JStr "a cat")].
Proof.
  refine (proj1 (@heap_decode_captions_keeps_argument
                   [[("id", JInt 7); ("image_id", JInt 1); ("caption", JStr "a cat")]]
                   _ 0
                   [("id", JInt 7); ("image_id", JInt 1); ("caption", JStr "a cat")]
                   (Ok 1) _ _)).
  - reflexivity.
  - reflexivity.
Defined.

(** X4: the decoder on objects computes what the decoder on values does:
    the object it returns holds the record the value version returns. *)
Lemma heap_decode_captions_refines
  (h h' : Heap.heap) (ann ann' : Heap.loc) (d : PyDict.t json) :
  Heap.deref h ann = Some d ->
  Heap._decode_captions_ann ann h = (h', Ok ann') ->
  exists d', Heap.deref h' ann' = Some d'
             /\ _decode_captions_ann (JDict d) = Ok (Json (JDict d')).
Proof.
  intros Hann Hrun.
  rewrite (heap_decode_captions_run _ _ Hann) in Hrun.
  rewrite decode_captions_dict.
  destruct (PyDict.get "image_id" d); [| discriminate].
  injection Hrun as <- <-.
  exists (PyDict.remove "image_id" d). split; [| reflexivity].
  apply deref_store_eq with (d0 := d).
  exact (deref_alloc_new h d).
Qed.

Lemma heap_decode_captions_refines_witness :
  exists d',
    Heap.deref
      [[("id", JInt 7); ("image_id", JInt 1); ("caption", JStr "a cat")];
       [("id", JInt 7); ("caption", JStr "a cat")]] 1
    = Some d'
    /\ _decode_captions_ann scenario_caption = Ok (Json (JDict d')).
Proof.
  exact (@heap_decode_captions_refines
           [[("id", JInt 7); ("image_id", JInt 1); ("caption", JStr "a cat")]]
           _ 0 1 _ eq_refl eq_refl).
Defined.

(** ** Collation *)

Lemma split_map (A B : Type) (l : list (A * B)) :
  List.split l = (map fst l, map snd l).
Proof.
  induction l as [| [a b] l IH]; simpl.
  - reflexivity.
  - rewrite IH. reflexivity.
Qed.

Lemma zip_star_cons (A B : Type) (a : A) (b : B) (rest : list (A * B)) :
  zip_star ((a, b) :: rest) = Some (a :: map fst rest, b :: map snd rest).
Proof.
  unfold zip_star. rewrite split_map. reflexivity.
Qed.

(** On a non-empty list the two unpackings succeed, and what is left to do
    is to read the file name off the first image record. *)
Lemma precollate_anns_cons (anns : list json) (image : json)
  (rest : list (list json * json)) (types : list string) :
  _precollate_anns ((anns, image) :: rest) types
  = (file_name <- py_getitem image "file_name" ;;
     Ok (file_name,
         PyDict.of_pairs (combine types (map JList (anns :: map fst rest))))).
Proof.
  unfold _precollate_anns. rewrite zip_star_cons. reflexivity.
Qed.

(** C9: on a non-empty list of (grouped annotations, image record) pairs
    [_precollate_anns] does not fail: the pair list unzips into the
    annotation groups and the image records, the image side has a first
    record, and the pair of that record's file name and the mapping of the
    types to the groups is returned; nothing but a first record without
    [file_name], which is no image record, makes the call raise.  On the
    empty list the unpacking raises. *)
Theorem precollate_anns_nonempty :
  (forall (data : list (list json * json)) (types : list string),
      data <> [] ->
      exists ann_data image_data others,
        zip_star data = Some (ann_data, image_data :: others)
        /\ (forall file_name,
               py_getitem image_data "file_name" = Ok file_name ->
               _precollate_anns data types
               = Ok (file_name,
                     PyDict.of_pairs (combine types (map JList ann_data))))
        /\ (forall e,
               _precollate_anns data types = Raise e ->
               py_getitem image_data "file_name" = Raise e))
  /\ (forall types : list string,
         _precollate_anns [] types
         = Raise (ValueError "not enough values to unpack (expected 2, got 0)")).
Proof.
  split.
  - intros data types Hne.
    destruct data as [| [anns image] rest]; [congruence |].
    exists (anns :: map fst rest), image, (map snd rest).
    split; [apply zip_star_cons |]. split.
    + intros file_name Hfile.
      rewrite precollate_anns_cons, Hfile. reflexivity.
    + intros e. rewrite precollate_anns_cons.
      destruct (py_getitem image "file_name") as [file_name | e'].
      * discriminate.
      * intros [= ->]. reflexivity.
  - intros types. reflexivity.
Qed.

Lemma precollate_anns_nonempty_witness :
  exists ann_data image_data others,
    zip_star [([scenario_annotation], scenario_image)]
    = Some (ann_data, image_data :: others)
    /\ (forall file_name,
           py_getitem image_data "file_name" = Ok file_name ->
           _precollate_anns [([scenario_annotation], scenario_image)] ["instances"]
           = Ok (file_name,
                 PyDict.of_pairs (combine ["instances"] (map JList ann_data))))
    /\ (forall e,
           _precollate_anns [([scenario_annotation], scenario_image)] ["instances"]
           = Raise e ->
           py_getitem image_data "file_name" = Raise e).
Proof.
  apply (proj1 precollate_anns_nonempty
               [([scenario_annotation], scenario_image)] ["instances"]).
  discriminate.
Defined.

(** A single pair is filed under the first type requested, whatever stream
    it came from. *)
Lemma precollate_anns_single (anns : list json) (image file_name : json)
  (type : string) (types : list string) :
  py_getitem image "file_name" = Ok file_name ->
  _precollate_anns [(anns, image)] (type :: types)
  = Ok (file_name, [(type, JList anns)]).
Proof.
  intros H. rewrite precollate_anns_cons, H. simpl.
  rewrite combine_nil. reflexivity.
Qed.

(** C2, at the failing input: with both annotation types requested, an image
    that has caption records only is collated into a mapping whose one key is
    ["instances"]; the key ["captions"] is absent and the caption records sit
    under the other type's key. *)
Theorem precollate_captions_only_misfiled :
  selected_ann_types both_types_config = ["instances"; "captions"]
  /\ _precollate_anns [([scenario_caption], scenario_image)]
                      (selected_ann_types both_types_config)
     = Ok (JStr "000001.jpg", [("instances", JList [scenario_caption])]).
Proof.
  split; reflexivity.
Qed.

(** ** Decoding a collated sample *)

(** The decoder table knows the two annotation types only. *)
Lemma decoder_map_keys (k : string) (decode : list string -> json -> result pyobj) :
  PyDict.get k _ANN_DECODER_MAP = Some decode -> k = "instances" \/ k = "captions".
Proof.
  change _ANN_DECODER_MAP
    with [("instances", _decode_instances_ann);
          ("captions", fun _ : list string => _decode_captions_ann)].
  simpl.
  destruct (String.eqb_spec k "instances") as [-> | _]; [tauto |].
  destruct (String.eqb_spec k "captions") as [-> | _]; [tauto | discriminate].
Qed.

Lemma decode_anns_Ok_inv (categories : list string) (anns : PyDict.t json)
  (decoded : PyDict.t pyobj) :
  decode_anns categories anns = Ok decoded ->
  exists l, decoded = PyDict.of_pairs l /\ Forall2 (decoded_from categories) anns l.
Proof.
  unfold decode_anns. intros H.
  apply bind_Ok_inv in H. destruct H as [l [Hl H]]. injection H as <-.
  exists l. split; [reflexivity |].
  apply mapM_Ok_Forall2 in Hl. revert Hl. apply Forall2_impl.
  intros [k ann] y Hy.
  apply bind_Ok_inv in Hy. destruct Hy as [decode [Hdec Hy]].
  apply bind_Ok_inv in Hy. destruct Hy as [v [Hv Hy]]. injection Hy as <-.
  exists decode. cbn [fst snd]. split; [| split; [exact Hv | reflexivity]].
  unfold PyDict.getitem in Hdec.
  destruct (PyDict.get k _ANN_DECODER_MAP); [| discriminate].
  injection Hdec as ->. reflexivity.
Qed.





(** ** Sorting by key *)

Section SortByFacts.
Variables A K : Type.
Variable key : A -> K.
Variable leb : K -> K -> bool.

Lemma insert_by_perm (x : A) (l : list A) :
  Permutation (insert_by key leb x l) (x :: l).
Proof.
  induction l as [| y l IH]; simpl.
  - apply Permutation_refl.
  - destruct (leb (key x) (key y)).
    + apply Permutation_refl.
    + apply perm_trans with (y :: x :: l).
      * apply perm_skip. exact IH.
      * apply perm_swap.
Qed.

Lemma sort_by_perm (l : list A) : Permutation (sort_by key leb l) l.
Proof.
  induction l as [| x l IH]; simpl.
  - apply perm_nil.
  - apply perm_trans with (x :: sort_by key leb l).
    + apply insert_by_perm.
    + apply perm_skip. exact IH.
Qed.

Lemma sort_by_length (l : list A) : List.length (sort_by key leb l) = List.length l.
Proof. apply Permutation_length. apply sort_by_perm. Qed.

End SortByFacts.

(** Sorting commutes with relabelling the entries. *)
Lemma sort_by_map (A B K : Type) (f : A -> B) (key : B -> K) (leb : K -> K -> bool)
  (l : list A) :
  sort_by key leb (map f l) = map f (sort_by (fun x => key (f x)) leb l).
Proof.
  induction l as [| x l IH]; simpl; [reflexivity |].
  rewrite IH. generalize (sort_by (fun x => key (f x)) leb l). intros s.
  induction s as [| y s IHs]; simpl; [reflexivity |].
  destruct (leb (key (f x)) (key (f y))); simpl; [reflexivity |].
  rewrite IHs. reflexivity.
Qed.

Section SortByZ.
Variable A : Type.
Variable key : A -> Z.




End SortByZ.

(** ** The vocabulary *)

Lemma forallb_is_num_ids (entries : list (json * Z)) :
  forallb (fun x : json * json => is_num (snd x)) (map name_and_id entries) = true.
Proof.
  induction entries as [| e entries IH]; simpl; [reflexivity | exact IH].
Qed.

Lemma py_sorted_by_id (entries : list (json * Z)) :
  py_sorted snd (map name_and_id entries)
  = Ok (map name_and_id (sort_by snd Z.leb entries)).
Proof.
  destruct entries as [| e1 [| e2 entries]]; try reflexivity.
  change (py_sorted snd (map name_and_id (e1 :: e2 :: entries)))
    with (if forallb (fun x : json * json => is_num (snd x))
                     (map name_and_id (e1 :: e2 :: entries))
          then Ok (sort_by (fun x : json * json => num_of (snd x)) Z.leb
                           (map name_and_id (e1 :: e2 :: entries)))
          else if forallb (fun x : json * json => is_str (snd x))
                          (map name_and_id (e1 :: e2 :: entries))
          then Ok (sort_by (fun x : json * json => str_of (snd x)) String.leb
                           (map name_and_id (e1 :: e2 :: entries)))
          else Raise (TypeError "unorderable sort keys")).
  rewrite forallb_is_num_ids. rewrite sort_by_map. reflexivity.
Qed.

Lemma mapM_name_and_id (infos : list json) (entries : list (json * Z)) :
  Forall2 (fun info e => py_getitem info "name" = Ok (fst e)
                         /\ py_getitem info "id" = Ok (JInt (snd e)))
          infos entries ->
  mapM (fun info => name <- py_getitem info "name" ;;
                    id <- py_getitem info "id" ;;
                    Ok (name, id)) infos
  = Ok (map name_and_id entries).
Proof.
  induction 1 as [| info e infos entries [Hname Hid] _ IH]; simpl.
  - reflexivity.
  - rewrite Hname, Hid. simpl. rewrite IH. reflexivity.
Qed.




(** ** The end-to-end scenario *)

(** With an annotation type selected, a metadata archive with at least one
    entry stops the graph at the first classification, whatever the
    buffering combinators do. *)
Lemma make_anns_dp_raises
  (MappingIterator : list json -> result (list (string * json)))
  (UnBatcher : list json -> result (list json))
  (Grouper : forall A : Type, list A -> (A -> result json) -> result (list (list A)))
  (IterKeyZipper : forall A B : Type, list A -> list B -> (A -> result json) ->
                                      (B -> result json) -> result (list (A * B)))
  (entry : string * json) (meta_dp : list (string * json)) (config : DatasetConfig) :
  selected_ann_types config <> [] ->
  _make_anns_dp MappingIterator UnBatcher Grouper IterKeyZipper (entry :: meta_dp) config
  = Raise (TypeError "got an unexpected keyword argument type_idcs").
Proof.
  intros Hsel. unfold _make_anns_dp, Demultiplexer.
  destruct (selected_ann_types config) as [| type types] eqn:E; [congruence |].
  reflexivity.
Qed.

(** C1, at the scenario's inputs: a pass over the graph ends with
    [TypeError] at the first metadata entry and yields no sample, for every
    name of that entry, every split and year of a configuration that selects
    the instances, and every choice of the buffering combinators.  The later
    stages do not produce the expected sample either:
    [_decode_instances_ann] raises [ValueError] on the scenario's
    annotation, since the integer 5 is no element of the vocabulary of
    names, and [_collate_and_decode_sample] hands the decoder the list of
    grouped annotations, on which the first subscript raises [TypeError]. *)
Theorem scenario_A_raises :
  (forall (MappingIterator : list json -> result (list (string * json)))
          (UnBatcher : list json -> result (list json))
          (Grouper : forall A : Type, list A -> (A -> result json)
                                      -> result (list (list A)))
          (IterKeyZipper : forall A B : Type, list A -> list B -> (A -> result json)
                                              -> (B -> result json)
                                              -> result (list (A * B)))
          (name content split year : string)
          (decoder : option (string -> result pyobj)),
      _make_datapipe MappingIterator UnBatcher Grouper IterKeyZipper
        scenario_vocabulary [("000001.jpg", content)]
        [(name, scenario_document)]
        {| instances := true; captions := false; split := split; year := year |}
        decoder
      = Raise (TypeError "got an unexpected keyword argument type_idcs"))
  /\ _decode_instances_ann scenario_vocabulary scenario_annotation
     = Raise (ValueError "value is not in the sequence")
  /\ _precollate_anns [([scenario_annotation], scenario_image)]
                      (selected_ann_types scenario_config)
     = Ok (JStr "000001.jpg", [("instances", JList [scenario_annotation])])
  /\ (forall (content : string) (decoder : option (string -> result pyobj)),
         _collate_and_decode_sample scenario_vocabulary
           ((JStr "000001.jpg", [("instances", JList [scenario_annotation])]),
            ("000001.jpg", content)) decoder
         = Raise (TypeError "list indices must be integers or slices, not str")).
Proof.
  split; [| split; [| split]].
  - intros MappingIterator UnBatcher Grouper IterKeyZipper name content split year
           decoder.
    unfold _make_datapipe. rewrite make_anns_dp_raises by discriminate.
    reflexivity.
  - reflexivity.
  - reflexivity.
  - intros content decoder. reflexivity.
Qed.

(** ** Options and resources *)

Lemma get_pair_images_checksums (y s sha : string) :
  get_pair (y, s) _IMAGES_CHECKSUMS = Some sha ->
  (y = "2014" \/ y = "2017") /\ (s = "train" \/ s = "val").
Proof.
  unfold _IMAGES_CHECKSUMS. simpl.
  destruct (String.eqb_spec y "2014"), (String.eqb_spec y "2017"),
    (String.eqb_spec s "train"), (String.eqb_spec s "val");
    simpl; intros H; try discriminate H; tauto.
Qed.

(** X5: [resources] returns exactly for the configurations whose split and
    year are valid options of [_make_info]; it then returns two resources,
    the image archive [{split}{year}.zip] and the metadata archive
    [annotations_trainval{year}.zip], each with a checksum.  For any other
    split or year the checksum lookup raises [KeyError]. *)
Theorem resources_defined_iff_valid (config : DatasetConfig) :
  (option_allowed _make_info "split" (OptStr (split config)) = true
   /\ option_allowed _make_info "year" (OptStr (year config)) = true
   <-> exists images_sha256 meta_sha256,
         resources config
         = Ok [ {| url := _IMAGE_URL_BASE ++ "/" ++ split config ++ year config
                          ++ ".zip";
                   sha256 := images_sha256 |};
                {| url := _META_URL_BASE ++ "/annotations_trainval" ++ year config
                          ++ ".zip";
                   sha256 := meta_sha256 |} ])
  /\ (option_allowed _make_info "split" (OptStr (split config)) = false
      \/ option_allowed _make_info "year" (OptStr (year config)) = false ->
      exists key, resources config = Raise (KeyError key)).
Proof.
  destruct config as [i c s y]. unfold option_allowed, resources. cbn.
  split; [split |].
  - intros [Hs Hy].
    destruct (String.eqb_spec s "train") as [-> | _];
      [| destruct (String.eqb_spec s "val") as [-> | _]; [| discriminate Hs]];
      (destruct (String.eqb_spec y "2017") as [-> | _];
       [| destruct (String.eqb_spec y "2014") as [-> | _]; [| discriminate Hy]]);
      eexists; eexists; reflexivity.
  - intros (sha1 & sha2 & H).
    unfold getitem_pair in H.
    destruct (get_pair (y, s) _IMAGES_CHECKSUMS) as [sha |] eqn:E; [| discriminate H].
    apply get_pair_images_checksums in E.
    destruct E as [[-> | ->] [-> | ->]]; split; reflexivity.
  - intros H. unfold getitem_pair.
    destruct (get_pair (y, s) _IMAGES_CHECKSUMS) as [sha |] eqn:E.
    + apply get_pair_images_checksums in E.
      destruct E as [[-> | ->] [-> | ->]]; destruct H as [H | H]; discriminate H.
    + eexists. reflexivity.
Qed.

Lemma resources_defined_iff_valid_witness :
  exists images_sha256 meta_sha256,
    resources both_types_config
    = Ok [ {| url := "http://images.cocodataset.org/zips/train2017.zip";
              sha256 := images_sha256 |};
           {| url := "http://images.cocodataset.org/annotations/annotations_trainval2017.zip";
              sha256 := meta_sha256 |} ].
Proof.
  apply (proj1 (proj1 (resources_defined_iff_valid both_types_config))).
  split; reflexivity.
Defined.

(** X6: two configurations for which [resources] returns share the image
    archive, its address or its checksum only when they agree on split and
    year, and they share the metadata archive exactly when they agree on the
    year: the annotation flags play no part. *)
Theorem resources_distinct (c1 c2 : DatasetConfig) (i1 m1 i2 m2 : HttpResource) :
  resources c1 = Ok [i1; m1] ->
  resources c2 = Ok [i2; m2] ->
  (url i1 = url i2 -> split c1 = split c2 /\ year c1 = year c2)
  /\ (sha256 i1 = sha256 i2 -> split c1 = split c2 /\ year c1 = year c2)
  /\ (split c1 = split c2 -> year c1 = year c2 -> i1 = i2)
  /\ (m1 = m2 <-> year c1 = year c2).
Proof.
  destruct c1 as [a1 b1 s1 y1], c2 as [a2 b2 s2 y2].
  unfold resources, getitem_pair. cbn [split year].
  destruct (get_pair (y1, s1) _IMAGES_CHECKSUMS) as [sha1 |] eqn:E1; [| discriminate].
  destruct (get_pair (y2, s2) _IMAGES_CHECKSUMS) as [sha2 |] eqn:E2; [| discriminate].
  pose proof (get_pair_images_checksums _ _ E1) as H1.
  pose proof (get_pair_images_checksums _ _ E2) as H2.
  destruct H1 as [[-> | ->] [-> | ->]]; destruct H2 as [[-> | ->] [-> | ->]];
    cbn in E1, E2; injection E1 as <-; injection E2 as <-; cbn;
    intros [= <- <-] [= <- <-];
    repeat match goal with
           | |- _ /\ _ => split
           | |- _ <-> _ => split
           end;
    cbn; intros; try discriminate; try (split; reflexivity); reflexivity.
Qed.

Lemma resources_distinct_witness :
  "train" = "train" /\ "2017" = "2017".
Proof.
  refine (proj1 (@resources_distinct scenario_config both_types_config
                   _ _ _ _ eq_refl eq_refl) eq_refl).
Defined.

(** ** Routing the top-level keys *)

(** X7: the demultiplexer of [_make_partial_anns_dp] never raises and
    splits the items of a document in two channels: the items keyed
    ["images"], then those keyed ["annotations"], each in stream order;
    every other item is dropped. *)
Theorem partial_demultiplex_by_key (meta_dp : list (string * json)) :
  Demultiplexer meta_dp 2 (fun data => Ok (_classify_meta data))
  = Ok [filter (keyed "images") meta_dp; filter (keyed "annotations") meta_dp].
Proof.
  unfold Demultiplexer, keyed.
  induction meta_dp as [| [k v] meta_dp IH]; [reflexivity |].
  cbn [demultiplex bind _classify_meta filter fst].
  destruct (String.eqb_spec k "images") as [-> | Himages].
  - cbn. rewrite IH. reflexivity.
  - destruct (String.eqb_spec k "annotations") as [-> | Hanns].
    + cbn. rewrite IH. reflexivity.
    + exact IH.
Qed.

(** ** File names and directories *)

Lemma split_on_nonempty (sep : ascii) (s : string) : split_on sep s <> [].
Proof.
  destruct s as [| c s]; simpl; [discriminate |].
  destruct (Ascii.eqb c sep); [discriminate |].
  destruct (split_on sep s); discriminate.
Qed.

Lemma split_on_app (sep : ascii) (a b : string) :
  split_on sep (a ++ String sep b) = (split_on sep a ++ split_on sep b)%list.
Proof.
  induction a as [| c a IH]; simpl.
  - rewrite Ascii.eqb_refl. reflexivity.
  - destruct (Ascii.eqb c sep); [rewrite IH; reflexivity |].
    rewrite IH.
    destruct (split_on sep a) as [| w ws] eqn:E; [| reflexivity].
    exfalso. exact (split_on_nonempty sep a E).
Qed.

Lemma split_on_no_separator (s : string) :
  no_separator s = true -> split_on "/" s = [s].
Proof.
  unfold no_separator. induction s as [| c s IH]; simpl; [reflexivity |].
  intros H. apply andb_true_iff in H. destruct H as [Hc Hs].
  apply negb_true_iff in Hc. rewrite Hc, (IH Hs). reflexivity.
Qed.

(** The name of a path that ends in a proper file name is that file name. *)
Lemma path_name_in_directory (dir name : string) :
  no_separator name = true -> name <> "" -> name <> "." ->
  path_name (dir ++ "/" ++ name) = name.
Proof.
  intros Hsep Hne Hdot. unfold path_name.
  change (dir ++ "/" ++ name) with (dir ++ String "/" name).
  rewrite split_on_app, (split_on_no_separator _ Hsep), filter_app. simpl.
  apply String.eqb_neq in Hne. apply String.eqb_neq in Hdot.
  rewrite Hne, Hdot. simpl. apply last_last.
Qed.

Lemma path_name_bare (name : string) :
  no_separator name = true -> name <> "" -> name <> "." -> path_name name = name.
Proof.
  intros Hsep Hne Hdot. unfold path_name.
  rewrite (split_on_no_separator _ Hsep). simpl.
  apply String.eqb_neq in Hne. apply String.eqb_neq in Hdot.
  rewrite Hne, Hdot. reflexivity.
Qed.

(** X8: [_classifiy_meta_files] reads the file name of an entry and nothing
    else of its path: an entry in any directory is classified as the entry
    of the same file name in no directory, whatever the content. *)
Theorem classifiy_meta_files_ignores_directory (A B : Type) (dir name : string)
  (content : A) (content' : B) (split year : string) (ann_type_idcs : PyDict.t nat) :
  no_separator name = true -> name <> "" -> name <> "." ->
  _classifiy_meta_files (dir ++ "/" ++ name, content) split year ann_type_idcs
  = _classifiy_meta_files (name, content') split year ann_type_idcs.
Proof.
  intros Hsep Hne Hdot. unfold _classifiy_meta_files. cbn [fst].
  rewrite (path_name_in_directory dir Hsep Hne Hdot).
  rewrite (path_name_bare Hsep Hne Hdot). reflexivity.
Qed.

Lemma classifiy_meta_files_ignores_directory_witness :
  _classifiy_meta_files
    ("/data/coco/annotations_trainval2017.zip/annotations/captions_val2017.json", tt)
    "val" "2017" (channel_table ["instances"; "captions"])
  = _classifiy_meta_files ("captions_val2017.json", 0)
      "val" "2017" (channel_table ["instances"; "captions"]).
Proof.
  refine (@classifiy_meta_files_ignores_directory unit nat
            "/data/coco/annotations_trainval2017.zip/annotations"
            "captions_val2017.json" tt 0 "val" "2017"
            (channel_table ["instances"; "captions"]) _ _ _).
  - reflexivity.
  - discriminate.
  - discriminate.
Defined.

(** ** Channels within range *)

Lemma index_of_Some (k : string) (l : list string) (i : nat) :
  index_of k l = Some i -> nth_error l i = Some k.
Proof.
  revert i. induction l as [| x l IH]; intros i; simpl; [discriminate |].
  destruct (String.eqb_spec x k) as [-> | _].
  - intros [= <-]. reflexivity.
  - destruct (index_of k l) as [j |]; [| discriminate].
    intros [= <-]. simpl. apply IH. reflexivity.
Qed.

(** X9: a channel [_classifiy_meta_files] returns, called with the channel
    table of a configuration, is smaller than the number of selected
    annotation types, the number of channels [_make_anns_dp] asks the
    demultiplexer for; the entry's name then matches the pattern with the
    configuration's split and year, and the channel is the position of the
    captured annotation type among the selected ones. *)
Theorem classifiy_meta_files_channel_in_range (A : Type) (config : DatasetConfig)
  (data : string * A) (channel : nat) :
  _classifiy_meta_files data (split config) (year config)
    (channel_table (selected_ann_types config)) = Some channel ->
  channel < List.length (selected_ann_types config)
  /\ exists m,
       _META_FILE_PATTERN_match (path_name (fst data)) = Some m
       /\ Match.split m = split config
       /\ Match.year m = year config
       /\ nth_error (selected_ann_types config) channel = Some (Match.ann_type m).
Proof.
  unfold _classifiy_meta_files.
  destruct (_META_FILE_PATTERN_match (path_name (fst data))) as [m |];
    [| discriminate].
  destruct (String.eqb_spec (Match.split m) (split config)) as [Hs | _];
    [| discriminate].
  destruct (String.eqb_spec (Match.year m) (year config)) as [Hy | _];
    [| discriminate].
  simpl. rewrite get_channel_table by apply selected_ann_types_NoDup.
  intros H. apply index_of_Some in H.
  split.
  - apply nth_error_Some. rewrite H. discriminate.
  - exists m. repeat split; assumption.
Qed.

Lemma classifiy_meta_files_channel_in_range_witness :
  1 < List.length (selected_ann_types both_types_config)
  /\ exists m,
       _META_FILE_PATTERN_match
         (path_name (fst ("annotations/captions_train2017.json", tt))) = Some m
       /\ Match.split m = split both_types_config
       /\ Match.year m = year both_types_config
       /\ nth_error (selected_ann_types both_types_config) 1
          = Some (Match.ann_type m).
Proof.
  apply (@classifiy_meta_files_channel_in_range unit both_types_config
           ("annotations/captions_train2017.json", tt) 1).
  reflexivity.
Defined.

(** ** Collation by position *)

Lemma set_fresh (V : Type) (k : string) (v : V) (d : PyDict.t V) :
  ~ In k (PyDict.keys d) -> PyDict.set k v d = (d ++ [(k, v)])%list.
Proof.
  induction d as [| [k' v'] d IH]; simpl; intros Hk.
  - reflexivity.
  - destruct (String.eqb_spec k k') as [-> | _]; [tauto |].
    rewrite IH by tauto. reflexivity.
Qed.

Lemma update_fresh (V : Type) (l d : PyDict.t V) :
  NoDup (PyDict.keys (d ++ l)%list) -> PyDict.update d l = (d ++ l)%list.
Proof.
  unfold PyDict.update. revert d. induction l as [| [k v] l IH]; intros d Hnd; simpl.
  - rewrite app_nil_r. reflexivity.
  - assert (Hk : ~ In k (PyDict.keys d)).
    { unfold PyDict.keys in *. rewrite map_app in Hnd. simpl in Hnd.
      apply NoDup_remove_2 in Hnd. intros Hin. apply Hnd.
      apply in_or_app. left. exact Hin. }
    rewrite (@set_fresh V k v d Hk).
    rewrite IH; rewrite <- app_assoc; [reflexivity | exact Hnd].
Qed.

(** A dictionary built from pairs with distinct keys holds the pairs as
    they were given. *)
Lemma of_pairs_NoDup (V : Type) (l : list (string * V)) :
  NoDup (PyDict.keys l) -> PyDict.of_pairs l = l.
Proof.
  intros Hnd. change (PyDict.of_pairs l) with (PyDict.update [] l).
  apply (@update_fresh V l []). exact Hnd.
Qed.

Lemma keys_combine (V : Type) (l : list string) (vs : list V) :
  PyDict.keys (combine l vs) = firstn (List.length vs) l.
Proof.
  revert vs. induction l as [| k l IH]; intros vs; simpl.
  - rewrite firstn_nil. reflexivity.
  - destruct vs as [| v vs]; simpl; [reflexivity |]. f_equal. apply IH.
Qed.

Lemma NoDup_firstn (A : Type) (n : nat) (l : list A) : NoDup l -> NoDup (firstn n l).
Proof.
  intros Hnd. rewrite <- (firstn_skipn n l) in Hnd.
  apply NoDup_app_remove_r in Hnd. exact Hnd.
Qed.

Lemma get_combine_nth (V : Type) (l : list string) (vs : list V) (i : nat)
  (k : string) (v : V) :
  NoDup l -> nth_error l i = Some k -> nth_error vs i = Some v ->
  PyDict.get k (combine l vs) = Some v.
Proof.
  revert vs i. induction l as [| k0 l IH]; intros vs i Hnd Hk Hv.
  - destruct i; discriminate Hk.
  - destruct vs as [| v0 vs]; [destruct i; discriminate Hv |].
    inversion Hnd as [| ? ? Hnotin Hnd']; subst.
    destruct i as [| i]; simpl in *.
    + injection Hk as ->. injection Hv as ->.
      rewrite String.eqb_refl. reflexivity.
    + destruct (String.eqb_spec k k0) as [-> | _].
      * exfalso. apply Hnotin. apply (nth_error_In _ _ Hk).
      * apply (IH vs i Hnd' Hk Hv).
Qed.

(** X10: [_precollate_anns] files the groups by position.  With distinct
    requested types and an image record that gives its file name, the
    mapping returned pairs the i-th requested type with the i-th group of
    the list, in that order: its keys are the first [len(data)] requested
    types, whatever annotation stream each group came from, and groups
    beyond the number of types are left out. *)
Theorem precollate_anns_by_position (anns : list json) (image file_name : json)
  (rest : list (list json * json)) (types : list string) :
  NoDup types ->
  py_getitem image "file_name" = Ok file_name ->
  let data := (anns, image) :: rest in
  let groups := map JList (map fst data) in
  _precollate_anns data types = Ok (file_name, combine types groups)
  /\ PyDict.keys (combine types groups) = firstn (List.length data) types
  /\ (forall i type group,
         nth_error types i = Some type ->
         nth_error (map fst data) i = Some group ->
         PyDict.get type (combine types groups) = Some (JList group)).
Proof.
  intros Hnd Hfile data groups. subst data groups.
  split; [| split].
  - rewrite precollate_anns_cons, Hfile. cbn [bind]. f_equal. f_equal.
    apply of_pairs_NoDup. rewrite keys_combine. apply NoDup_firstn. exact Hnd.
  - rewrite keys_combine, !length_map. reflexivity.
  - intros i type group Htype Hgroup.
    apply (get_combine_nth _ i Hnd Htype).
    rewrite nth_error_map, Hgroup. reflexivity.
Qed.

Lemma precollate_anns_by_position_witness :
  _precollate_anns
    [([scenario_annotation], scenario_image); ([scenario_caption], scenario_image)]
    ["instances"; "captions"]
  = Ok (JStr "000001.jpg",
        [("instances", JList [scenario_annotation]);
         ("captions", JList [scenario_caption])]).
Proof.
  refine (proj1 (@precollate_anns_by_position [scenario_annotation] scenario_image
                   (JStr "000001.jpg") [([scenario_caption], scenario_image)]
                   ["instances"; "captions"] _ eq_refl)).
  repeat constructor; simpl; intuition discriminate.
Defined.

(** ** Collation followed by decoding *)

Lemma decode_instances_list (categories : list string) (xs : list json) :
  _decode_instances_ann categories (JList xs)
  = Raise (TypeError "list indices must be integers or slices, not str").
Proof. reflexivity. Qed.

Lemma decode_captions_list (xs : list json) :
  _decode_captions_ann (JList xs)
  = Raise (TypeError "str object cannot be interpreted as an integer").
Proof. reflexivity. Qed.

(** Either decoder of the table raises [TypeError] on a list. *)
Lemma decoder_map_list (type : string)
  (decode : list string -> json -> result pyobj) (categories : list string)
  (v : json) :
  PyDict.get type _ANN_DECODER_MAP = Some decode ->
  is_list v = true ->
  exists why, decode categories v = Raise (TypeError why).
Proof.
  change _ANN_DECODER_MAP
    with [("instances", _decode_instances_ann);
          ("captions", fun _ : list string => _decode_captions_ann)].
  destruct v as [| | | | xs |]; try discriminate. simpl.
  destruct (String.eqb type "instances").
  - intros [= <-] _. eexists. apply decode_instances_list.
  - destruct (String.eqb type "captions"); [| discriminate].
    intros [= <-] _. eexists. apply decode_captions_list.
Qed.

Lemma decoder_map_types (type : string) :
  In type _ANN_TYPES -> exists decode, PyDict.get type _ANN_DECODER_MAP = Some decode.
Proof.
  simpl. intros [<- | [<- | []]]; eexists; reflexivity.
Qed.

(** Updating a dictionary leaves its first key in place, and a first value
    that is a list stays one when every value written is a list. *)
Lemma update_head_list (k : string) (v : json) (d l : PyDict.t json) :
  is_list v = true ->
  Forall (fun kv => is_list (snd kv) = true) l ->
  exists v' d', PyDict.update ((k, v) :: d) l = (k, v') :: d' /\ is_list v' = true.
Proof.
  unfold PyDict.update. intros Hv Hl. revert v d Hv.
  induction Hl as [| [k0 v0] l Hv0 _ IH]; intros v d Hv; simpl.
  - exists v, d. split; [reflexivity | exact Hv].
  - destruct (String.eqb k0 k).
    + apply IH. exact Hv0.
    + apply IH. exact Hv.
Qed.

Lemma Forall_combine_lists (types : list string) (groups : list (list json)) :
  Forall (fun kv : string * json => is_list (snd kv) = true)
         (combine types (map JList groups)).
Proof.
  revert groups. induction types as [| t types IH]; intros groups; simpl.
  - constructor.
  - destruct groups as [| g groups]; simpl; constructor; [reflexivity | apply IH].
Qed.

(** X11: what [_precollate_anns] returns is never decoded.  When at least
    one type is requested, [_collate_and_decode_sample] raises on every
    collated record [_precollate_anns] can return, whatever the image entry
    and the image decoder: each value of the mapping is a whole list of
    annotation records, and the decoder of the first type is applied to the
    list itself.  The exception is [TypeError] when that type is an
    annotation type. *)
Theorem collated_groups_are_rejected (categories : list string)
  (data : list (list json * json)) (types : list string)
  (collated : json * PyDict.t json) (image_data : string * string)
  (decoder : option (string -> result pyobj)) :
  types <> [] ->
  _precollate_anns data types = Ok collated ->
  exists e,
    _collate_and_decode_sample categories (collated, image_data) decoder = Raise e
    /\ (forall type others, types = type :: others -> In type _ANN_TYPES ->
                            exists why, e = TypeError why).
Proof.
  intros Htypes Hpre.
  destruct data as [| [anns image] rest]; [discriminate Hpre |].
  destruct types as [| type others]; [congruence |].
  rewrite precollate_anns_cons in Hpre.
  apply bind_Ok_inv in Hpre. destruct Hpre as [file_name [_ Hpre]].
  injection Hpre as <-.
  cbn [map combine].
  change (PyDict.of_pairs
            ((type, JList anns) :: combine others (map JList (map fst rest))))
    with (PyDict.update [(type, JList anns)]
            (combine others (map JList (map fst rest)))).
  destruct (@update_head_list type (JList anns) []
              (combine others (map JList (map fst rest))) eq_refl
              (Forall_combine_lists others (map fst rest)))
    as (v' & d' & Hupd & Hv').
  rewrite Hupd.
  destruct image_data as [path buffer].
  unfold _collate_and_decode_sample, decode_anns. cbn [mapM bind].
  unfold PyDict.getitem.
  destruct (PyDict.get type _ANN_DECODER_MAP) as [decode |] eqn:Hdec.
  - destruct (decoder_map_list type categories v' Hdec Hv') as [why Hwhy].
    cbn [bind]. rewrite Hwhy. cbn [bind].
    exists (TypeError why). split; [reflexivity |].
    intros t o _ _. exists why. reflexivity.
  - cbn [bind]. exists (KeyError type). split; [reflexivity |].
    intros t o [= <- <-] Hin.
    destruct (decoder_map_types Hin) as [decode Hsome]. congruence.
Qed.

Lemma collated_groups_are_rejected_witness :
  exists e,
    _collate_and_decode_sample scenario_vocabulary
      ((JStr "000001.jpg", [("instances", JList [scenario_annotation])]),
       ("000001.jpg", "bytes")) None
    = Raise e
    /\ (forall type others,
           ["instances"] = type :: others -> In type _ANN_TYPES ->
           exists why, e = TypeError why).
Proof.
  apply (@collated_groups_are_rejected scenario_vocabulary
           [([scenario_annotation], scenario_image)] ["instances"]
           (JStr "000001.jpg", [("instances", JList [scenario_annotation])])
           ("000001.jpg", "bytes") None).
  - discriminate.
  - reflexivity.
Defined.

(** ** Errors of the sample decoder *)

Lemma decoded_from_known (categories : list string) (anns : PyDict.t json)
  (l : PyDict.t pyobj) :
  Forall2 (decoded_from categories) anns l ->
  forall k, In k (PyDict.keys anns) -> In k _ANN_TYPES.
Proof.
  induction 1 as [| [k0 a0] y anns l (decode & Hdec & _) _ IH]; simpl.
  - tauto.
  - intros k [<- | Hk].
    + simpl in Hdec. destruct (decoder_map_keys _ Hdec) as [-> | ->]; tauto.
    + apply IH. exact Hk.
Qed.

(** X12: [_collate_and_decode_sample] returns only when every step did:
    every key of the collated mapping is an annotation type, the
    annotations decode, the image decoder (if any) returns, and the sample
    is the decoded annotations updated with ["path"] and ["image"].  The
    annotations are decoded first: when that raises, the same exception
    leaves the function and the image decoder has no say. *)
Theorem collate_and_decode_sample_inv (categories : list string)
  (file_name : json) (anns : PyDict.t json) (path buffer : string)
  (decoder : option (string -> result pyobj)) :
  (forall sample,
      _collate_and_decode_sample categories ((file_name, anns), (path, buffer)) decoder
      = Ok sample ->
      (forall k, In k (PyDict.keys anns) -> In k _ANN_TYPES)
      /\ exists decoded image,
           decode_anns categories anns = Ok decoded
           /\ match decoder with
              | Some decode => decode buffer
              | None => Ok (Buffer buffer)
              end = Ok image
           /\ sample
              = PyDict.update decoded [("path", Json (JStr path)); ("image", image)])
  /\ (forall e,
         decode_anns categories anns = Raise e ->
         _collate_and_decode_sample categories ((file_name, anns), (path, buffer))
           decoder
         = Raise e).
Proof.
  split.
  - intros sample H. unfold _collate_and_decode_sample in H.
    apply bind_Ok_inv in H. destruct H as [decoded [Hdec H]].
    apply bind_Ok_inv in H. destruct H as [image [Himg H]].
    injection H as <-. split.
    + destruct (decode_anns_Ok_inv _ _ Hdec) as [l [_ Hl]].
      apply (decoded_from_known Hl).
    + exists decoded, image. repeat split; assumption.
  - intros e H. unfold _collate_and_decode_sample. rewrite H. reflexivity.
Qed.

Lemma collate_and_decode_sample_inv_witness :
  _collate_and_decode_sample scenario_vocabulary
    ((JStr "000001.jpg", [("keypoints", scenario_caption)]), ("000001.jpg", "bytes"))
    (Some (fun _ => Raise TensorError))
  = Raise (KeyError "keypoints").
Proof.
  apply (proj2 (collate_and_decode_sample_inv scenario_vocabulary (JStr "000001.jpg")
                  [("keypoints", scenario_caption)] "000001.jpg" "bytes"
                  (Some (fun _ => Raise TensorError)))).
  reflexivity.
Defined.

(** ** Errors of the annotation decoders *)

Lemma mem_get (V : Type) (k : string) (d : PyDict.t V) :
  PyDict.mem k d = true -> exists v, PyDict.get k d = Some v.
Proof.
  unfold PyDict.mem. destruct (PyDict.get k d) as [v |]; [| discriminate].
  intros _. exists v. reflexivity.
Qed.



(** X14: [_decode_captions_ann] cannot be applied twice: the record it
    returns no longer holds [image_id], so decoding it again raises
    [KeyError]. *)
Theorem decode_captions_twice (d d' : PyDict.t json) :
  _decode_captions_ann (JDict d) = Ok (Json (JDict d')) ->
  _decode_captions_ann (JDict d') = Raise (KeyError "image_id").
Proof.
  rewrite !decode_captions_dict.
  destruct (PyDict.get "image_id" d); [| discriminate].
  intros [= <-]. rewrite PyDictFacts.get_remove_eq. reflexivity.
Qed.

Lemma decode_captions_twice_witness :
  _decode_captions_ann (JDict [("id", JInt 7); ("caption", JStr "a cat")])
  = Raise (KeyError "image_id").
Proof.
  apply (@decode_captions_twice
           [("id", JInt 7); ("image_id", JInt 1); ("caption", JStr "a cat")]).
  reflexivity.
Defined.

(** ** Reading the vocabulary *)

Lemma filter_none (A : Type) (f : A -> bool) (l : list A) :
  forallb (fun x => negb (f x)) l = true -> filter f l = [].
Proof.
  induction l as [| x l IH]; simpl; [reflexivity |].
  intros H. apply andb_true_iff in H. destruct H as [Hx Hl].
  apply negb_true_iff in Hx. rewrite Hx. apply IH. exact Hl.
Qed.

(** X15: [_generate_categories] reads the first entry of the archive that
    passes the filter and nothing else: entries before it that fail the
    filter and all entries after it, passing or not, do not change what it
    returns or raises.  An archive in which no entry passes the filter makes
    it raise [StopIteration]. *)
Theorem generate_categories_first_match (is_instances_file : string * json -> bool) :
  (forall (before after : list (string * json)) (entry : string * json),
      forallb (fun e => negb (is_instances_file e)) before = true ->
      is_instances_file entry = true ->
      _generate_categories is_instances_file (before ++ entry :: after)%list
      = _generate_categories is_instances_file [entry])
  /\ (forall archive : list (string * json),
         forallb (fun e => negb (is_instances_file e)) archive = true ->
         _generate_categories is_instances_file archive = Raise StopIteration).
Proof.
  split.
  - intros before after entry Hbefore Hentry. unfold _generate_categories.
    rewrite filter_app, (filter_none _ _ Hbefore). simpl. rewrite Hentry.
    destruct entry as [path meta]. reflexivity.
  - intros archive H. unfold _generate_categories.
    rewrite (filter_none _ _ H). reflexivity.
Qed.

Lemma generate_categories_first_match_witness :
  _generate_categories (instances_file_of scenario_config)
    (scenario_categories_archive
     ++ [("annotations/instances_train2017.json", JDict [])])%list
  = _generate_categories (instances_file_of scenario_config)
      [("annotations/instances_train2017.json",
        JDict [("categories",
                JList [JDict [("supercategory", JStr "animal"); ("id", JInt 17);
                              ("name", JStr "cat")];
                       JDict [("supercategory", JStr "person"); ("id", JInt 1);
                              ("name", JStr "person")];
                       JDict [("supercategory", JStr "animal"); ("id", JInt 16);
                              ("name", JStr "bird")]])])].
Proof.
  apply (proj1 (generate_categories_first_match (instances_file_of scenario_config))
               [("annotations/captions_train2017.json", JDict [])]
               [("annotations/instances_train2017.json", JDict [])]).
  - reflexivity.
  - reflexivity.
Defined.

(** What [_generate_categories] computes from a document whose categories
    carry a name and an integer id. *)
Lemma generate_categories_run
  (is_instances_file : string * json -> bool) (archive rest : list (string * json))
  (path : string) (meta : json) (infos : list json) (entries : list (json * Z)) :
  filter is_instances_file archive = (path, meta) :: rest ->
  py_getitem meta "categories" = Ok (JList infos) ->
  Forall2 (fun info e => py_getitem info "name" = Ok (fst e)
                         /\ py_getitem info "id" = Ok (JInt (snd e)))
          infos entries ->
  entries <> [] ->
  _generate_categories is_instances_file archive
  = Ok (map fst (sort_by snd Z.leb entries)).
Proof.
  intros Hfilter Hcats Hinfos Hne.
  unfold _generate_categories. rewrite Hfilter, Hcats. cbn [bind py_iter].
  rewrite (mapM_name_and_id Hinfos). cbn [bind].
  rewrite py_sorted_by_id. cbn [bind].
  destruct (sort_by snd Z.leb entries) as [| [name id] sorted] eqn:Esorted.
  - exfalso. apply Hne. apply length_zero_iff_nil.
    rewrite <- (sort_by_length snd Z.leb entries), Esorted. reflexivity.
  - cbn [map]. unfold name_and_id at 1. cbn [fst snd].
    rewrite zip_star_cons. rewrite !map_map. reflexivity.
Qed.

(** Sorting leaves a sorted list as it is. *)
Lemma sort_by_sorted_id (A : Type) (key : A -> Z) (l : list A) :
  StronglySorted (le_by key) l -> sort_by key Z.leb l = l.
Proof.
  induction 1 as [| x l Hsorted IH Hall]; simpl; [reflexivity |].
  rewrite IH. destruct l as [| y l]; simpl; [reflexivity |].
  inversion Hall as [| ? ? Hxy _]; subst. unfold le_by in Hxy.
  apply Z.leb_le in Hxy. rewrite Hxy. reflexivity.
Qed.

(** X16: when the metadata lists its categories in ascending order of id,
    as the dataset's files do, the vocabulary is the names in the order
    listed; the vocabulary has one name per category either way. *)
Theorem generate_categories_keeps_sorted_order
  (is_instances_file : string * json -> bool) (archive rest : list (string * json))
  (path : string) (meta : json) (infos : list json) (entries : list (json * Z)) :
  filter is_instances_file archive = (path, meta) :: rest ->
  py_getitem meta "categories" = Ok (JList infos) ->
  Forall2 (fun info e => py_getitem info "name" = Ok (fst e)
                         /\ py_getitem info "id" = Ok (JInt (snd e)))
          infos entries ->
  entries <> [] ->
  (exists categories,
      _generate_categories is_instances_file archive = Ok categories
      /\ List.length categories = List.length infos)
  /\ (StronglySorted (le_by snd) entries ->
      _generate_categories is_instances_file archive = Ok (map fst entries)).
Proof.
  intros Hfilter Hcats Hinfos Hne.
  pose proof (generate_categories_run _ _ Hfilter Hcats Hinfos Hne) as Hrun.
  split.
  - exists (map fst (sort_by snd Z.leb entries)). split; [exact Hrun |].
    rewrite length_map, sort_by_length.
    symmetry. apply (Forall2_length Hinfos).
  - intros Hsorted. rewrite Hrun, (sort_by_sorted_id Hsorted). reflexivity.
Qed.

Lemma generate_categories_keeps_sorted_order_witness :
  _generate_categories (instances_file_of scenario_config)
    [("annotations/instances_train2017.json", scenario_sorted_document)]
  = Ok [JStr "person"; JStr "bird"; JStr "cat"].
Proof.
  refine (proj2 (@generate_categories_keeps_sorted_order
                   (instances_file_of scenario_config)
                   [("annotations/instances_train2017.json", scenario_sorted_document)]
                   [] "annotations/instances_train2017.json"
                   scenario_sorted_document scenario_sorted_infos
                   [(JStr "person", 1%Z); (JStr "bird", 16%Z); (JStr "cat", 17%Z)]
                   eq_refl eq_refl _ _) _).
  - repeat constructor.
  - discriminate.
  - repeat constructor; unfold le_by; simpl; lia.
Defined.

(** ** A pass over the datapipe *)

(** X17: with an annotation type selected and at least one entry in the
    metadata archive, a pass over the datapipe [_make_datapipe] builds ends
    with [TypeError] before any sample is made, whatever the images, the
    metadata, the image decoder and the buffering combinators: the first
    entry is classified through the keyword [type_idcs]. *)
Theorem make_datapipe_raises
  (MappingIterator : list json -> result (list (string * json)))
  (UnBatcher : list json -> result (list json))
  (Grouper : forall A : Type, list A -> (A -> result json) -> result (list (list A)))
  (IterKeyZipper : forall A B : Type, list A -> list B -> (A -> result json) ->
                                      (B -> result json) -> result (list (A * B)))
  (categories : list string) (images_dp : list (string * string))
  (entry : string * json) (meta_dp : list (string * json)) (config : DatasetConfig)
  (decoder : option (string -> result pyobj)) :
  instances config = true \/ captions config = true ->
  _make_datapipe MappingIterator UnBatcher Grouper IterKeyZipper categories
    images_dp (entry :: meta_dp) config decoder
  = Raise (TypeError "got an unexpected keyword argument type_idcs").
Proof.
  intros Hsel. unfold _make_datapipe.
  rewrite make_anns_dp_raises; [reflexivity |].
  unfold selected_ann_types, _ANN_TYPES, config_enabled. cbn.
  destruct Hsel as [H | H]; rewrite H; [discriminate |].
  destruct (instances config); discriminate.
Qed.

Lemma make_datapipe_raises_witness :
  _make_datapipe (fun _ => Ok []) (fun l => Ok l) (fun A l _ => Ok [l])
    (fun A B _ _ _ _ => Ok []) scenario_vocabulary []
    [("annotations/captions_val2014.json", JDict [])]
    {| instances := false; captions := true; split := "val"; year := "2014" |}
    None
  = Raise (TypeError "got an unexpected keyword argument type_idcs").
Proof.
  apply make_datapipe_raises. right. reflexivity.
Defined.

(** ** Missing fields in the metadata *)

Lemma mapM_first_error (A B : Type) (f : A -> result B) (before after : list A)
  (x : A) (e : exn) :
  Forall (fun a => exists b, f a = Ok b) before ->
  f x = Raise e ->
  mapM f (before ++ x :: after)%list = Raise e.
Proof.
  intros Hbefore Hx. induction Hbefore as [| a before [b Hb] _ IH]; simpl.
  - rewrite Hx. reflexivity.
  - rewrite Hb. cbn [bind]. rewrite IH. reflexivity.
Qed.

(** X18: [_generate_categories] raises [KeyError] on metadata that lacks a
    field it reads: ["categories"] when the document has no such key, and
    ["name"] or ["id"] for the first category entry without it, however many
    complete entries come before and whatever comes after. *)
Theorem generate_categories_missing_field
  (is_instances_file : string * json -> bool) (archive rest : list (string * json))
  (path : string) (document : PyDict.t json) :
  filter is_instances_file archive = (path, JDict document) :: rest ->
  (PyDict.get "categories" document = None ->
   _generate_categories is_instances_file archive = Raise (KeyError "categories"))
  /\ (forall (before after : list json) (info : PyDict.t json),
         PyDict.get "categories" document
         = Some (JList (before ++ JDict info :: after)%list) ->
         Forall (fun i => exists name id,
                            py_getitem i "name" = Ok name
                            /\ py_getitem i "id" = Ok id) before ->
         (PyDict.get "name" info = None ->
          _generate_categories is_instances_file archive = Raise (KeyError "name"))
         /\ (PyDict.mem "name" info = true -> PyDict.get "id" info = None ->
             _generate_categories is_instances_file archive = Raise (KeyError "id"))).
Proof.
  intros Hfilter. unfold _generate_categories. rewrite Hfilter. split.
  - intros H. rewrite (py_getitem_missing _ _ H). reflexivity.
  - intros before after info Hcats Hbefore.
    rewrite (py_getitem_dict _ _ Hcats). cbn [bind py_iter].
    assert (Hok : Forall (fun a => exists b,
                    (name <- py_getitem a "name" ;;
                     id <- py_getitem a "id" ;; Ok (name, id)) = Ok b) before).
    { revert Hbefore. apply Forall_impl. intros i (name & id & Hn & Hi).
      exists (name, id). rewrite Hn, Hi. reflexivity. }
    split.
    + intros H.
      rewrite (@mapM_first_error json (json * json) _ before after (JDict info)
                 (KeyError "name") Hok).
      * reflexivity.
      * rewrite (py_getitem_missing _ _ H). reflexivity.
    + intros Hname H. destruct (mem_get _ _ Hname) as [name Hn].
      rewrite (@mapM_first_error json (json * json) _ before after (JDict info)
                 (KeyError "id") Hok).
      * reflexivity.
      * rewrite (py_getitem_dict _ _ Hn), (py_getitem_missing _ _ H). reflexivity.
Qed.

Lemma generate_categories_missing_field_witness :
  _generate_categories (instances_file_of scenario_config)
    [("annotations/instances_train2017.json",
      JDict [("categories",
              JList [JDict [("id", JInt 1); ("name", JStr "person")];
                     JDict [("name", JStr "bird")];
                     JDict [("id", JInt 17)]])])]
  = Raise (KeyError "id").
Proof.
  destruct (@generate_categories_missing_field (instances_file_of scenario_config)
              [("annotations/instances_train2017.json",
                JDict [("categories",
                        JList [JDict [("id", JInt 1); ("name", JStr "person")];
                               JDict [("name", JStr "bird")];
                               JDict [("id", JInt 17)]])])]
              [] "annotations/instances_train2017.json"
              [("categories",
                JList [JDict [("id", JInt 1); ("name", JStr "person")];
                       JDict [("name", JStr "bird")];
                       JDict [("id", JInt 17)]])] eq_refl) as [_ H].
  destruct (H [JDict [("id", JInt 1); ("name", JStr "person")]]
              [JDict [("id", JInt 17)]] [("name", JStr "bird")] eq_refl) as [_ Hid].
  - constructor; [| constructor]. exists (JStr "person"), (JInt 1). split; reflexivity.
  - apply Hid; reflexivity.
Defined.

(** ** The image side of a collated list *)

(** [_precollate_anns] reads the image record of the first pair only.
    Two lists that agree on their first pair and on the annotation groups of
    the later pairs give the same result, whatever the later image records
    are; and a first image record that is a dictionary without ["file_name"]
    makes the call raise [KeyError], whatever the other pairs hold. *)
Theorem precollate_anns_first_image (anns : list json) (image : json)
  (rest rest' : list (list json * json)) (types : list string) :
  (map fst rest = map fst rest' ->
   _precollate_anns ((anns, image) :: rest) types
   = _precollate_anns ((anns, image) :: rest') types)
  /\ (forall record : PyDict.t json,
         image = JDict record -> PyDict.get "file_name" record = None ->
         _precollate_anns ((anns, image) :: rest) types
         = Raise (KeyError "file_name")).
Proof.
  split.
  - intros H. rewrite !precollate_anns_cons, H. reflexivity.
  - intros record -> H. rewrite precollate_anns_cons.
    rewrite (py_getitem_missing _ _ H). reflexivity.
Qed.

Lemma precollate_anns_first_image_witness :
  _precollate_anns
    [([scenario_annotation], scenario_image); ([scenario_caption], scenario_image)]
    ["instances"; "captions"]
  = _precollate_anns
      [([scenario_annotation], scenario_image); ([scenario_caption], JNull)]
      ["instances"; "captions"].
Proof.
  apply (proj1 (precollate_anns_first_image [scenario_annotation] scenario_image
                  [([scenario_caption], scenario_image)]
                  [([scenario_caption], JNull)] ["instances"; "captions"])).
  reflexivity.
Defined.

(** ** The files of a valid configuration *)



(** ** Decoding the same record again *)

(** X20: since the argument is left as it was, a caption record can be
    decoded any number of times: two calls of [_decode_captions_ann] on the
    same record, one after the other, both return, and return two different
    new objects that hold the same entries, the record without [image_id];
    the record itself still holds what it held. *)
Theorem heap_decode_captions_repeatable
  (h h1 : Heap.heap) (ann first : Heap.loc) (d : PyDict.t json) :
  Heap.deref h ann = Some d ->
  Heap._decode_captions_ann ann h = (h1, Ok first) ->
  exists h2 second,
    Heap._decode_captions_ann ann h1 = (h2, Ok second)
    /\ second <> first /\ second <> ann
    /\ Heap.deref h2 first = Some (PyDict.remove "image_id" d)
    /\ Heap.deref h2 second = Some (PyDict.remove "image_id" d)
    /\ Heap.deref h2 ann = Some d.
Proof.
  intros Hann Hrun.
  rewrite (heap_decode_captions_run _ _ Hann) in Hrun.
  destruct (PyDict.get "image_id" d) as [v |] eqn:Hid; [| discriminate].
  injection Hrun as <- <-.
  pose proof (deref_lt _ _ Hann) as Hlt.
  set (h1 := Heap.store (h ++ [d])%list (List.length h) (PyDict.remove "image_id" d)).
  assert (Hfirst : Heap.deref h1 (List.length h) = Some (PyDict.remove "image_id" d)).
  { apply deref_store_eq with (d0 := d). exact (deref_alloc_new h d). }
  assert (Hann1 : Heap.deref h1 ann = Some d).
  { unfold h1. rewrite deref_store_ne by lia.
    apply (@deref_alloc_old h d d ann Hann). }
  pose proof (deref_lt _ _ Hfirst) as Hlen1.
  exists (Heap.store (h1 ++ [d])%list (List.length h1) (PyDict.remove "image_id" d)),
    (List.length h1).
  split; [| split; [| split; [| split; [| split]]]].
  - rewrite (heap_decode_captions_run _ _ Hann1), Hid. reflexivity.
  - lia.
  - lia.
  - rewrite deref_store_ne by lia.
    apply (@deref_alloc_old h1 _ d (List.length h) Hfirst).
  - apply deref_store_eq with (d0 := d). exact (deref_alloc_new h1 d).
  - rewrite deref_store_ne by lia.
    apply (@deref_alloc_old h1 d d ann Hann1).
Qed.

Lemma heap_decode_captions_repeatable_witness :
  exists h2 second,
    Heap._decode_captions_ann 0
      [[("id", JInt 7); ("image_id", JInt 1)]; [("id", JInt 7)]]
    = (h2, Ok second)
    /\ second <> 1 /\ second <> 0
    /\ Heap.deref h2 1 = Some (PyDict.remove "image_id"
                                 [("id", JInt 7); ("image_id", JInt 1)])
    /\ Heap.deref h2 second = Some (PyDict.remove "image_id"
                                      [("id", JInt 7); ("image_id", JInt 1)])
    /\ Heap.deref h2 0 = Some [("id", JInt 7); ("image_id", JInt 1)].
Proof.
  apply (@heap_decode_captions_repeatable
           [[("id", JInt 7); ("image_id", JInt 1)]]
           [[("id", JInt 7); ("image_id", JInt 1)]; [("id", JInt 7)]]
           0 1 [("id", JInt 7); ("image_id", JInt 1)]).
  - reflexivity.
  - reflexivity.
Defined.
